(** * US accidents dashboard: data preparation and the filter-aggregate callback

    A shallow embedding of [dashboard.py].  A pandas [DataFrame] is a row
    index together with a finite map from column names to [Series]; the
    module-level preparation code (lines 12-22) is [prepare], and the Dash
    callback [update_dashboard] (lines 98-158) is a function from the prepared
    frame and the three dropdown values to the data handed to the widgets.
    Python exceptions are the [Raise] case of a small error monad.

    The pandas operations the program calls are written out as far as the
    program uses them:
    - numbers ([int64] and [float64] cells alike) are exact rationals [Qc], so
      comparisons against the bin edges, counts and means are exact and the
      rounding of floating-point sums is left out;
    - a categorical column keeps its list of categories, which
      [value_counts] lists in full and [groupby(observed=True)] only as far
      as they occur;
    - [sort_values] is pandas' [nargsort] over numpy's [argsort], whose
      default algorithm is not stable: the argsort is a parameter of which
      only [sorts] is known, so nothing is said about the order of rows with
      equal counts;
    - the percentages of the pie chart are [float64] values, taken as a
      parameter as well. *)

From stdpp Require Import base option list strings gmap numbers sorting.
From Stdlib Require Import QArith Qcanon.

Local Close Scope Qc_scope.
Local Close Scope Q_scope.
Local Open Scope string_scope.
Local Open Scope list_scope.
Local Open Scope nat_scope.

(** ** Python values and exceptions *)

(** A scalar held in a column or shown in a card. *)
Inductive cell :=
  | Str (s : string)   (* text, or the label of a categorical value *)
  | Num (q : Qc)       (* int64 / float64 *)
  | NaN.               (* missing value *)

Global Instance cell_eq_dec : EqDecision cell.
Proof. solve_decision. Defined.

Inductive error :=
  | KeyError (k : string)
  | TypeError
  | ValueError.

Inductive result (A : Type) :=
  | Ok (a : A)
  | Raise (e : error).
Arguments Ok {A} a.
Arguments Raise {A} e.

Definition bind {A B} (m : result A) (k : A → result B) : result B :=
  match m with
  | Ok a => k a
  | Raise e => Raise e
  end.

Notation "'let*' x ':=' m 'in' k" := (bind m (λ x, k))
  (at level 10, x name, m at level 100, k at level 200).

(** ** Series and frames *)

Inductive dtype :=
  | Object
  | Numeric
  | Category (categories : list string).

Record Series := mkSeries { dtype_of : dtype; values : list cell }.

Record DataFrame := mkFrame { index : list nat; data : gmap string Series }.

(** [len(df)] *)
Definition len (df : DataFrame) : nat := length (index df).

(** ["c" in df.columns] and ["c" in df] *)
Definition has_column (df : DataFrame) (c : string) : bool :=
  bool_decide (is_Some (data df !! c)).

(** [df["c"]] *)
Definition getitem (df : DataFrame) (c : string) : result Series :=
  match data df !! c with
  | Some s => Ok s
  | None => Raise (KeyError c)
  end.

(** [df["c"] = s] *)
Definition setitem (df : DataFrame) (c : string) (s : Series) : DataFrame :=
  mkFrame (index df) (<[c := s]> (data df)).

(** The invariants pandas maintains: every column has one cell per row, and
    the categories of a categorical column are distinct. *)
Definition series_ok (n : nat) (s : Series) : Prop :=
  length (values s) = n ∧
  match dtype_of s with
  | Category cats => NoDup cats
  | _ => True
  end.

Global Instance series_ok_dec n s : Decision (series_ok n s).
Proof. unfold series_ok. destruct (dtype_of s); apply _. Defined.

Definition wf (df : DataFrame) : Prop :=
  map_Forall (λ _ s, series_ok (len df) s) (data df).

Global Instance wf_dec df : Decision (wf df).
Proof. unfold wf. apply _. Defined.

(** Boolean-mask selection [xs[mask]]. *)
Fixpoint select {A} (mask : list bool) (xs : list A) : list A :=
  match mask, xs with
  | b :: mask', x :: xs' => if b then x :: select mask' xs' else select mask' xs'
  | _, _ => []
  end.

Definition select_series (mask : list bool) (s : Series) : Series :=
  mkSeries (dtype_of s) (select mask (values s)).

(** [df[mask]] *)
Definition loc (df : DataFrame) (mask : list bool) : DataFrame :=
  mkFrame (select mask (index df)) (select_series mask <$> data df).

(** ** [pd.cut] with explicit bin edges and labels (right-closed intervals) *)

Fixpoint cut_label (bins : list Qc) (labels : list string) (x : Qc) : cell :=
  match bins, labels with
  | lo :: ((hi :: _) as rest), l :: labels' =>
      if bool_decide (lo < x)%Qc && bool_decide (x ≤ hi)%Qc then Str l
      else cut_label rest labels' x
  | _, _ => NaN
  end.

Definition cut_cell (bins : list Qc) (labels : list string) (c : cell) : cell :=
  match c with
  | Num x => cut_label bins labels x
  | _ => NaN
  end.

Definition cut (s : Series) (bins : list Qc) (labels : list string) : result Series :=
  match dtype_of s with
  | Numeric => Ok (mkSeries (Category labels) (cut_cell bins labels <$> values s))
  | _ => Raise TypeError
  end.

Definition hour_bins : list Qc :=
  [Qc_of_Z (-1); Qc_of_Z 5; Qc_of_Z 11; Qc_of_Z 17; Qc_of_Z 23].
Definition hour_labels : list string :=
  ["Night"; "Morning"; "Afternoon"; "Evening"].

Definition precip_bins : list Qc :=
  [Q2Qc (-1 # 100); Q2Qc (1 # 100); Q2Qc (1 # 10); Q2Qc (1 # 2);
   Qc_of_Z 1; Qc_of_Z 5; Qc_of_Z 50].
Definition precip_labels : list string :=
  ["None"; "Trace"; "Light"; "Moderate"; "Heavy"; "Extreme"].


(** ** Counting, ordering and sorting *)

Definition dropna (xs : list cell) : list cell := filter (λ c, c ≠ NaN) xs.

(** Distinct values in order of first appearance ([pd.unique]). *)
Definition unique (xs : list cell) : list cell :=
  foldl (λ seen x, if decide (x ∈ seen) then seen else seen ++ [x]) [] xs.

Definition count (k : cell) (xs : list cell) : nat := length (filter (λ c, c = k) xs).

(** Order used to sort group keys: numbers by value, text by code point,
    numbers before text. *)
Definition cell_leb (a b : cell) : bool :=
  match a, b with
  | Num x, Num y => bool_decide (x ≤ y)%Qc
  | Num _, _ => true
  | Str x, Str y => String.leb x y
  | Str _, Num _ => false
  | Str _, NaN => true
  | NaN, NaN => true
  | NaN, _ => false
  end.

Section insertion_sort.
Context {A : Type} (le : A → A → bool).

Fixpoint insert_by (x : A) (l : list A) : list A :=
  match l with
  | [] => [x]
  | y :: l' => if le x y then x :: l else y :: insert_by x l'
  end.

(** Insertion sort.  The program's group keys and modes are lists of
    distinct values, on which every sorting algorithm gives this result. *)
Definition sort_by (l : list A) : list A := foldr insert_by [] l.
End insertion_sort.

(** A table of keys with their number of rows. *)
Abbreviation counts_table := (list (cell * nat)).

(** [t.take(ix)]: the rows of [t] at the positions [ix].  A position beyond
    the table, which an argsort of its keys never yields, gives no row. *)
Definition take_rows {A} (t : list A) (ix : list nat) : list A := omap (t !!.) ix.

(** What is known of [np.argsort(keys)]: it lists every position once, and
    the keys read in that order never decrease. *)
Definition sorts (argsort : list nat → list nat) : Prop :=
  ∀ keys, argsort keys ≡ₚ seq 0 (length keys) ∧
          StronglySorted le (take_rows keys (argsort keys)).

Section sort_values.
(** [np.argsort(keys)] with the default [kind="quicksort"], which is not
    stable: the order in which it lists the positions of equal keys is left
    open. *)
Variable argsort : list nat → list nat.

(** pandas' [nargsort]: a descending sort reverses the keys and their
    positions, sorts them in ascending order and reverses the outcome. *)
Definition nargsort (ascending : bool) (keys : list nat) : list nat :=
  let idx := seq 0 (length keys) in
  if ascending then take_rows idx (argsort keys)
  else reverse (take_rows (reverse idx) (argsort (reverse keys))).

(** [t.sort_values("count", ascending=...)] *)
Definition sort_values (ascending : bool) (t : counts_table) : counts_table :=
  take_rows t (nargsort ascending (snd <$> t)).

Definition sort_values_asc (t : counts_table) : counts_table := sort_values true t.
Definition sort_values_desc (t : counts_table) : counts_table := sort_values false t.
End sort_values.

(** [.head(n)] *)
Definition head {A} (n : nat) (l : list A) : list A := take n l.

(** ** Series methods *)

(** [s.isin(vals)] for a list of strings. *)
Definition isin_cell (vals : list string) (c : cell) : bool :=
  match c with
  | Str x => bool_decide (x ∈ vals)
  | _ => false
  end.
Definition isin (s : Series) (vals : list string) : list bool :=
  isin_cell vals <$> values s.

(** [s.value_counts()]: a categorical series lists every category, also the
    ones that do not occur; the outcome is sorted by count, descending. *)
Definition value_counts (argsort : list nat → list nat) (s : Series) : counts_table :=
  let keys := match dtype_of s with
              | Category cats => Str <$> cats
              | _ => unique (dropna (values s))
              end in
  sort_values_desc argsort ((λ k, (k, count k (values s))) <$> keys).

Definition Qc_of_nat (n : nat) : Qc := Qc_of_Z (Z.of_nat n).

(** [s.value_counts(normalize=True) * 100]: each count divided by the sum of
    the counts and multiplied by 100, in [float64]; [share c t] stands for
    the [float64] value of [c / t * 100]. *)
Definition value_counts_percent (argsort : list nat → list nat)
    (share : nat → nat → Qc) (s : Series) : list (cell * Qc) :=
  let t := value_counts argsort s in
  let total := sum_list (snd <$> t) in
  (λ e, (e.1, share e.2 total)) <$> t.

(** [t.idxmax()]: the label of the first row holding the largest count. *)
Definition idxmax (t : counts_table) : result cell :=
  match t with
  | [] => Raise ValueError
  | e :: t' => Ok (foldl (λ best x, if (best.2 <? x.2)%nat then x else best) e t').1
  end.

Definition is_num (c : cell) : bool := match c with Num _ => true | _ => false end.
Definition is_str (c : cell) : bool := match c with Str _ => true | _ => false end.

(** Position of a label in the category list. *)
Fixpoint cat_pos (cats : list string) (c : cell) : nat :=
  match cats with
  | [] => 0
  | l :: cats' => if decide (c = Str l) then 0 else S (cat_pos cats' c)
  end.

(** [s.mode()]: the most frequent non-missing values, sorted (values of mixed
    kinds cannot be sorted and are left in order of appearance). *)
Definition mode (s : Series) : list cell :=
  let xs := dropna (values s) in
  let keys := unique xs in
  let top := max_list ((λ k, count k xs) <$> keys) in
  let modes := filter (λ k, count k xs = top) keys in
  match dtype_of s with
  | Category cats => sort_by (λ a b, (cat_pos cats a <=? cat_pos cats b)%nat) modes
  | _ => if forallb is_num modes || forallb is_str modes
         then sort_by cell_leb modes else modes
  end.

(** [xs[0]] *)
Definition getitem0 (xs : list cell) : result cell :=
  match xs with
  | x :: _ => Ok x
  | [] => Raise (KeyError "0")
  end.

Definition numbers (xs : list cell) : list Qc :=
  omap (λ c, match c with Num q => Some q | _ => None end) xs.

Definition Qc_sum (qs : list Qc) : Qc := foldr Qcplus 0%Qc qs.

(** [s.mean()]: missing values are skipped; without any value the mean is
    [NaN]. *)
Definition mean (s : Series) : result cell :=
  match dtype_of s with
  | Numeric =>
      let qs := numbers (values s) in
      Ok (match qs with
          | [] => NaN
          | _ => Num (Qc_sum qs / Qc_of_nat (length qs))%Qc
          end)
  | _ => Raise TypeError
  end.

(** [df.groupby(c, observed=True).size().reset_index(name="count")]: one row
    per key that occurs, missing keys dropped, keys in ascending order
    (category order for a categorical column). *)
Definition groupby_size (df : DataFrame) (c : string) : result counts_table :=
  let* s := getitem df c in
  let keys := match dtype_of s with
              | Category cats => filter (λ k, k ∈ values s) (Str <$> cats)
              | _ => sort_by cell_leb (unique (dropna (values s)))
              end in
  Ok ((λ k, (k, count k (values s))) <$> keys).

(** ** The program *)

(** The value a multi-select dropdown sends: [None] before any interaction,
    otherwise the list of chosen option values. *)
Definition selection := option (list string).

(** Python truth value of a dropdown value: [None] and [[]] are false. *)
Definition truthy (sel : selection) : bool :=
  match sel with
  | Some (_ :: _) => true
  | _ => false
  end.

Definition chosen (sel : selection) : list string := default [] sel.

(** What the callback hands to the widgets: the four card values and the data
    behind each figure. *)
Record Outputs := mkOutputs {
  total_accidents : nat;
  most_common_severity : cell;
  busiest_hour_group : cell;
  avg_precip : cell;
  severity_counts : list (cell * Qc);
  accidents_by_hour : counts_table;
  fig_hour : counts_table;
  accidents_by_precip : counts_table;
  accidents_by_state : counts_table;
  fig_map : DataFrame
}.

(** [px.scatter_mapbox(df, lat=.., lon=.., hover_name=.., color=..)] refuses
    a frame that lacks one of the named columns. *)
Definition scatter_mapbox (df : DataFrame) (cols : list string) : result DataFrame :=
  if forallb (has_column df) cols then Ok df else Raise ValueError.

Section program.
(** Four library functions are taken as given: numpy's [argsort], the
    [float64] percentage [share], the hour of the parsed timestamps,
    [pd.to_datetime(s).dt.hour], and Python's [str] of a number. *)
Variable argsort : list nat → list nat.
Variable share : nat → nat → Qc.
Variable to_datetime_hour : Series → result Series.
Variable str_of_number : Qc → string.

(** [s.astype(str)] to an object column: a missing value becomes the text
    ["nan"]. *)
Definition astype_str (s : Series) : Series :=
  mkSeries Object
    ((λ c, Str match c with
               | Str x => x
               | Num q => str_of_number q
               | NaN => "nan"
               end) <$> values s).

(** Lines 12-22: the derived columns. *)
Definition prepare (df : DataFrame) : result DataFrame :=
  let* df :=
    if negb (has_column df "Hour") then
      let* start := getitem df "Start_Time" in
      let* hour := to_datetime_hour start in
      Ok (setitem df "Hour" hour)
    else Ok df in
  let* hour := getitem df "Hour" in
  let* hour_group := cut hour hour_bins hour_labels in
  let df := setitem df "Hour_Group" hour_group in
  if has_column df "Precipitation(in)" then
    let* precip := getitem df "Precipitation(in)" in
    let* precip_bin := cut precip precip_bins precip_labels in
    Ok (setitem df "Precipitation_Bin" precip_bin)
  else Ok df.

(** Lines 99-106: the three optional row filters. *)
Definition filter_rows (df : DataFrame)
    (selected_states selected_hour_groups selected_precip_bins : selection)
    : result DataFrame :=
  let filtered_df := df in
  let* filtered_df :=
    if truthy selected_states then
      let* state := getitem filtered_df "State" in
      Ok (loc filtered_df (isin state (chosen selected_states)))
    else Ok filtered_df in
  let* filtered_df :=
    if truthy selected_hour_groups then
      let* hour_group := getitem filtered_df "Hour_Group" in
      Ok (loc filtered_df (isin hour_group (chosen selected_hour_groups)))
    else Ok filtered_df in
  if truthy selected_precip_bins then
    let* precip_bin := getitem filtered_df "Precipitation_Bin" in
    Ok (loc filtered_df (isin (astype_str precip_bin) (chosen selected_precip_bins)))
  else Ok filtered_df.

(** Line 110 *)
Definition most_common_severity_of (filtered_df : DataFrame) : result cell :=
  if (0 <? len filtered_df)%nat then
    let* severity := getitem filtered_df "Severity" in
    getitem0 (mode severity)
  else Ok (Str "N/A").

(** Line 111 *)
Definition busiest_hour_group_of (filtered_df : DataFrame) : result cell :=
  if (0 <? len filtered_df)%nat then
    let* hour_group := getitem filtered_df "Hour_Group" in
    idxmax (value_counts argsort hour_group)
  else Ok (Str "N/A").

(** Line 112 *)
Definition avg_precip_of (filtered_df : DataFrame) : result cell :=
  if has_column filtered_df "Precipitation(in)" then
    let* precip := getitem filtered_df "Precipitation(in)" in
    mean precip
  else Ok (Num (Qc_of_Z 0)).

(** Lines 109-158: the cards and the data of the five figures. *)
Definition aggregate (filtered_df : DataFrame) : result Outputs :=
  let total_accidents := len filtered_df in
  let* most_common_severity := most_common_severity_of filtered_df in
  let* busiest_hour_group := busiest_hour_group_of filtered_df in
  let* avg_precip := avg_precip_of filtered_df in
  let* severity := getitem filtered_df "Severity" in
  let severity_counts := value_counts_percent argsort share severity in
  let* accidents_by_hour := groupby_size filtered_df "Hour_Group" in
  let fig_hour := sort_values_asc argsort accidents_by_hour in
  let* accidents_by_precip := groupby_size filtered_df "Precipitation_Bin" in
  let* by_state := groupby_size filtered_df "State" in
  let accidents_by_state := head 10 (sort_values_desc argsort by_state) in
  let* fig_map :=
    scatter_mapbox filtered_df ["Start_Lat"; "Start_Lng"; "City"; "Severity"] in
  Ok (mkOutputs total_accidents most_common_severity busiest_hour_group
        avg_precip severity_counts accidents_by_hour fig_hour
        accidents_by_precip accidents_by_state fig_map).

(** The callback. *)
Definition update_dashboard (df : DataFrame)
    (selected_states selected_hour_groups selected_precip_bins : selection)
    : result Outputs :=
  let* filtered_df :=
    filter_rows df selected_states selected_hour_groups selected_precip_bins in
  aggregate filtered_df.

End program.

(** ** The three-row scenario table *)

Definition text (xs : list string) : Series := mkSeries Object (Str <$> xs).
Definition ints (xs : list Z) : Series := mkSeries Numeric ((λ z, Num (Qc_of_Z z)) <$> xs).
Definition floats (xs : list (option Q)) : Series :=
  mkSeries Numeric ((λ x, from_option (λ q, Num (Q2Qc q)) NaN x) <$> xs).

(** The map and label columns every table below carries. *)
Definition place_columns : gmap string Series :=
  <["Start_Lat" := floats [Some (34 # 1); Some (37 # 1); Some (40 # 1)]%Q]>
  (<["Start_Lng" := floats [Some (-118 # 1); Some (-122 # 1); Some (-74 # 1)]%Q]>
  (<["City" := text ["Los Angeles"; "San Jose"; "New York"]]> ∅)).

Definition scenario_raw : DataFrame :=
  mkFrame [0; 1; 2]
    (<["State" := text ["CA"; "CA"; "NY"]]>
    (<["Severity" := ints [2; 3; 2]%Z]>
    (<["Hour" := ints [3; 14; 14]%Z]>
    (<["Precipitation(in)" := floats [Some (0 # 1); Some (2 # 10); None]%Q]>
     place_columns)))).

(** Stand-ins for the two library conversions, for tables that carry an
    [Hour] column and no numeric bucket: there neither is consulted. *)
Definition no_datetime (s : Series) : result Series := Raise ValueError.
Definition no_str (q : Qc) : string := "".

(** Two argsorts that meet [sorts]: insertion sort of the positions by key,
    listing equal keys first-first ([stable_argsort]) or last-first
    ([last_first_argsort]). *)
Definition insertion_argsort (test : nat → nat → bool) (keys : list nat) : list nat :=
  fst <$> sort_by (λ a b : nat * nat, test a.2 b.2) (zip (seq 0 (length keys)) keys).

Definition stable_argsort : list nat → list nat := insertion_argsort Nat.leb.
Definition last_first_argsort : list nat → list nat := insertion_argsort Nat.ltb.

(** The percentages as exact fractions, a stand-in where their value is not
    looked at. *)
Definition exact_share (c t : nat) : Qc :=
  (Qc_of_nat c / Qc_of_nat t * Qc_of_Z 100)%Qc.

(** The prepared form of a table ([raw] itself when preparation raises). *)
Definition prepared (to_datetime_hour : Series → result Series) (raw : DataFrame)
    : DataFrame :=
  match prepare to_datetime_hour raw with
  | Ok df => df
  | Raise _ => raw
  end.

Definition scenario_df : DataFrame := prepared no_datetime scenario_raw.

(** The same table as read from a file without an [Hour] column, and from a
    file without a precipitation column. *)
Definition scenario_raw_timestamps : DataFrame :=
  mkFrame (index scenario_raw)
    (<["Start_Time" := text ["2021-03-01 03:10:00"; "2021-03-01 14:05:00";
                             "2021-03-02 14:45:00"]]>
       (delete "Hour" (data scenario_raw))).

Definition scenario_raw_dry : DataFrame :=
  mkFrame (index scenario_raw) (delete "Precipitation(in)" (data scenario_raw)).

(** The hour of a timestamp written [YYYY-MM-DD HH:MM:SS], the format of the
    accident records; an instance of [pd.to_datetime(s).dt.hour]. *)
Definition digit (a : Ascii.ascii) : option Z :=
  let n := Z.of_nat (Ascii.nat_of_ascii a) in
  if bool_decide (48 ≤ n ≤ 57)%Z then Some (n - 48)%Z else None.

Definition iso_hour_cell (c : cell) : result cell :=
  match c with
  | Str t =>
      match String.get 11 t ≫= digit, String.get 12 t ≫= digit with
      | Some a, Some b => Ok (Num (Qc_of_Z (10 * a + b)))
      | _, _ => Raise ValueError
      end
  | NaN => Ok NaN
  | Num _ => Raise TypeError
  end.

Fixpoint iso_hour_cells (cs : list cell) : result (list cell) :=
  match cs with
  | [] => Ok []
  | c :: cs' =>
      let* h := iso_hour_cell c in
      let* hs := iso_hour_cells cs' in
      Ok (h :: hs)
  end.

Definition iso_hour (s : Series) : result Series :=
  let* hours := iso_hour_cells (values s) in
  Ok (mkSeries Numeric hours).

(** A table without a usable hour: one record has hour 24, the other has
    none. *)
Definition odd_hour_raw : DataFrame :=
  mkFrame [0; 1]
    (<["State" := text ["CA"; "NY"]]>
    (<["Severity" := ints [2; 3]%Z]>
    (<["Hour" := floats [Some (24 # 1); None]%Q]>
    (<["Precipitation(in)" := floats [Some (0 # 1); Some (3 # 10)]%Q]>
    (<["Start_Lat" := floats [Some (34 # 1); Some (40 # 1)]%Q]>
    (<["Start_Lng" := floats [Some (-118 # 1); Some (-74 # 1)]%Q]>
    (<["City" := text ["Los Angeles"; "New York"]]> ∅))))))).

(** Six records in four states, two of which have two records each. *)
Definition ties_raw : DataFrame :=
  mkFrame [0; 1; 2; 3; 4; 5]
    (<["State" := text ["CA"; "NY"; "TX"; "TX"; "WA"; "WA"]]>
    (<["Severity" := ints [2; 2; 3; 2; 2; 3]%Z]>
    (<["Hour" := ints [8; 9; 14; 15; 20; 21]%Z]>
    (<["Precipitation(in)" := floats [Some (0 # 1); Some (0 # 1); Some (5 # 100);
                                      Some (0 # 1); Some (3 # 10); Some (0 # 1)]%Q]>
    (<["Start_Lat" := floats [Some (34 # 1); Some (40 # 1); Some (29 # 1);
                              Some (32 # 1); Some (47 # 1); Some (47 # 1)]%Q]>
    (<["Start_Lng" := floats [Some (-118 # 1); Some (-74 # 1); Some (-95 # 1);
                              Some (-96 # 1); Some (-122 # 1); Some (-117 # 1)]%Q]>
    (<["City" := text ["Los Angeles"; "New York"; "Houston"; "Dallas"; "Seattle";
                       "Spokane"]]> ∅))))))).

Definition scenario_dry_df : DataFrame := prepared no_datetime scenario_raw_dry.
Definition scenario_timestamps_df : DataFrame := prepared iso_hour scenario_raw_timestamps.
Definition odd_hour_df : DataFrame := prepared no_datetime odd_hour_raw.
Definition ties_df : DataFrame := prepared no_datetime ties_raw.

(** ** The claims in the words of the specification *)

Definition cell_at (df : DataFrame) (c : string) (i : nat) : option cell :=
  s ← data df !! c; values s !! i.

Definition text_of (c : cell) : option string :=
  match c with
  | Str x => Some x
  | _ => None
  end.

(** Membership of a row's value in the chosen set. *)
Definition member (sel : selection) (v : option string) : bool :=
  match v with
  | Some x => bool_decide (x ∈ chosen sel)
  | None => false
  end.

(** An active constraint keeps a row when its value is one of the chosen
    ones; an absent (or empty) one keeps every row. *)
Definition constraint (sel : selection) (v : option string) : bool :=
  if truthy sel then member sel v else true.

Section specification.
Variable str_of_number : Qc → string.

(** The textual label of a precipitation bucket. *)
Definition label_text (c : cell) : string :=
  match c with
  | Str x => x
  | Num q => str_of_number q
  | NaN => "nan"
  end.

Definition row_satisfies (df : DataFrame) (ss sh sp : selection) (i : nat) : bool :=
  constraint ss (cell_at df "State" i ≫= text_of) &&
  constraint sh (cell_at df "Hour_Group" i ≫= text_of) &&
  constraint sp (label_text <$> cell_at df "Precipitation_Bin" i).

Definition matching_rows (df : DataFrame) (ss sh sp : selection) : nat :=
  length (filter (λ i, row_satisfies df ss sh sp i = true) (seq 0 (len df))).
End specification.

(** One dropdown value constrains at least as much as another. *)
Definition tightens (old new : selection) : Prop :=
  truthy old = false ∨ (truthy new = true ∧ chosen new ⊆ chosen old).

Global Instance tightens_dec old new : Decision (tightens old new).
Proof. unfold tightens. apply _. Defined.

(** Number of distinct states among the rows of a frame. *)
Definition distinct_states (df : DataFrame) : nat :=
  match data df !! "State" with
  | Some s => length (remove_dups (dropna (values s)))
  | None => 0
  end.

Definition same_count (n : nat) (e : cell * nat) : Prop := e.2 = n.

Global Instance same_count_dec n e : Decision (same_count n e).
Proof. unfold same_count. apply _. Defined.

(** Preparation as the contract words it: the raw table plus exactly the two
    derived columns. *)
Definition augmented_exactly (raw df : DataFrame) : Prop :=
  index df = index raw ∧
  dom (data df) = dom (data raw) ∪ {["Hour_Group"; "Precipitation_Bin"]} ∧
  ∀ c s, data raw !! c = Some s → data df !! c = Some s.

(** ** Notions used in the proofs *)

(** [fdf] holds exactly the rows of [df] that pass the test [g]. *)
Definition holds_rows (df fdf : DataFrame) (g : nat → bool) : Prop :=
  ∃ m, fdf = loc df m ∧ length m = len df ∧ ∀ i, i < len df → m !! i = Some (g i).

(** A table the callback can work on: all the columns it reads are there,
    every record has a severity, the hour group is categorical, and the
    precipitation amounts, when present, are numbers. *)
Definition required_columns : list string :=
  ["State"; "Severity"; "Hour_Group"; "Precipitation_Bin";
   "Start_Lat"; "Start_Lng"; "City"].

Definition ready (df : DataFrame) : Prop :=
  wf df ∧
  (∀ c, c ∈ required_columns → is_Some (data df !! c)) ∧
  (∀ s, data df !! "Severity" = Some s → NaN ∉ values s) ∧
  (∀ s, data df !! "Hour_Group" = Some s →
        ∃ cats, dtype_of s = Category cats ∧ cats ≠ []) ∧
  (∀ s, data df !! "Precipitation(in)" = Some s → dtype_of s = Numeric).

(** Two frames have the same columns, of the same types. *)
Definition same_columns (a b : DataFrame) : Prop :=
  ∀ c, dtype_of <$> data b !! c = dtype_of <$> data a !! c.

(** Order of two table rows by their count. *)
Definition count_le (a b : cell * nat) : Prop := a.2 ≤ b.2.

(** The position in the original list of the [j]-th element that a mask
    keeps. *)
Fixpoint origin (mask : list bool) (j : nat) : option nat :=
  match mask with
  | [] => None
  | true :: mask' =>
      match j with
      | 0 => Some 0
      | S j' => S <$> origin mask' j'
      end
  | false :: mask' => S <$> origin mask' j
  end.

(** ** The dropdowns of the layout *)

(** Lines 46 and 54: the options of a dropdown, [df[c].dropna().unique()],
    each used as label and as value. *)
Definition dropdown_options (df : DataFrame) (c : string) : result (list cell) :=
  let* s := getitem df c in
  Ok (unique (dropna (values s))).

Definition hour_filter_options (df : DataFrame) : result (list cell) :=
  dropdown_options df "Hour_Group".

Definition precip_filter_options (df : DataFrame) : result (list cell) :=
  dropdown_options df "Precipitation_Bin".

(** ** The buckets in closed form *)

Definition hour_group_of (h : Z) : cell :=
  if decide (h ≤ -1)%Z then NaN
  else if decide (h ≤ 5)%Z then Str "Night"
  else if decide (h ≤ 11)%Z then Str "Morning"
  else if decide (h ≤ 17)%Z then Str "Afternoon"
  else if decide (h ≤ 23)%Z then Str "Evening"
  else NaN.

Definition precip_bin_of (x : Qc) : cell :=
  if decide (x ≤ Q2Qc (-1 # 100))%Qc then NaN
  else if decide (x ≤ Q2Qc (1 # 100))%Qc then Str "None"
  else if decide (x ≤ Q2Qc (1 # 10))%Qc then Str "Trace"
  else if decide (x ≤ Q2Qc (1 # 2))%Qc then Str "Light"
  else if decide (x ≤ Qc_of_Z 1)%Qc then Str "Moderate"
  else if decide (x ≤ Qc_of_Z 5)%Qc then Str "Heavy"
  else if decide (x ≤ Qc_of_Z 50)%Qc then Str "Extreme"
  else NaN.

(** * Properties *)

(** ** Bins *)

Example cut_hour_3 : cut_cell hour_bins hour_labels (Num (Qc_of_Z 3)) = Str "Night".
Proof. vm_compute. reflexivity. Qed.

Example cut_hour_5 : cut_cell hour_bins hour_labels (Num (Qc_of_Z 5)) = Str "Night".
Proof. vm_compute. reflexivity. Qed.

Example cut_hour_24 : cut_cell hour_bins hour_labels (Num (Qc_of_Z 24)) = NaN.
Proof. vm_compute. reflexivity. Qed.

Example cut_precip_trace :
  cut_cell precip_bins precip_labels (Num (Q2Qc (5 # 100))) = Str "Trace".
Proof. vm_compute. reflexivity. Qed.

(** ** The error monad *)

Lemma bind_Ok {A B} (m : result A) (k : A → result B) (b : B) :
  bind m k = Ok b ↔ ∃ a, m = Ok a ∧ k a = Ok b.
Proof.
  destruct m as [a|e]; simpl; split.
  - intros Hk. by exists a.
  - by intros (a' & [= <-] & Hk).
  - discriminate.
  - by intros (a' & [=] & _).
Qed.

Ltac ok_inv :=
  repeat match goal with
  | H : bind _ _ = Ok _ |- _ => apply bind_Ok in H as (? & ? & H)
  | H : Ok _ = Ok _ |- _ => injection H as H
  | H : Raise _ = Ok _ |- _ => discriminate H
  end.

Lemma getitem_Ok df c s : getitem df c = Ok s ↔ data df !! c = Some s.
Proof. unfold getitem. destruct (data df !! c); split; congruence. Qed.

Lemma has_column_true df c : has_column df c = true ↔ is_Some (data df !! c).
Proof. unfold has_column. by rewrite bool_decide_eq_true. Qed.

Lemma has_column_false df c : has_column df c = false ↔ data df !! c = None.
Proof.
  unfold has_column. by rewrite bool_decide_eq_false, eq_None_not_Some.
Qed.

(** ** Boolean-mask selection *)

Section select_facts.
Context {A B : Type}.
Implicit Types (xs : list A) (ys : list B) (m : list bool).

Lemma length_select_fmap (f : B → bool) ys xs :
  length ys = length xs →
  length (select (f <$> ys) xs) = length (filter (λ y, f y = true) ys).
Proof.
  revert xs. induction ys as [|y ys IH]; intros [|x xs] [=]; [done|].
  cbn [fmap list_fmap select]. rewrite filter_cons.
  destruct (f y) eqn:Hy.
  - rewrite decide_True by done. simpl. by rewrite IH.
  - rewrite decide_False by done. by apply IH.
Qed.

Lemma select_all n xs : length xs ≤ n → select (replicate n true) xs = xs.
Proof.
  revert n. induction xs as [|x xs IH]; intros [|n] Hn; simpl in *; try done.
  - lia.
  - f_equal. apply IH. lia.
Qed.

Lemma select_select (f : B → bool) m ys xs :
  length m = length ys →
  select (f <$> select m ys) (select m xs) = select (zip_with andb m (f <$> ys)) xs.
Proof.
  revert ys xs. induction m as [|b m IH]; intros [|y ys] xs [=]; [done|].
  destruct xs as [|x xs]; simpl.
  - by destruct b, (select m ys).
  - destruct b; simpl; [|by apply IH].
    destruct (f y); [f_equal|]; by apply IH.
Qed.

Lemma length_select_same m xs ys :
  length xs = length ys → length (select m xs) = length (select m ys).
Proof.
  revert xs ys. induction m as [|b m IH]; intros [|x xs] [|y ys] [=]; try done.
  destruct b; simpl; auto.
Qed.
End select_facts.

Lemma mask_of_lookups (g : nat → bool) (m : list bool) :
  (∀ i, i < length m → m !! i = Some (g i)) → m = g <$> seq 0 (length m).
Proof.
  intros Hm. apply list_eq. intros i. rewrite list_lookup_fmap.
  destruct (decide (i < length m)) as [Hi|Hi].
  - by rewrite (Hm i Hi), lookup_seq_lt.
  - rewrite lookup_seq_ge by lia. apply lookup_ge_None. lia.
Qed.

(** ** Frames *)

Lemma wf_lookup df c s : wf df → data df !! c = Some s → length (values s) = len df.
Proof. intros Hwf Hs. by destruct (Hwf c s Hs). Qed.

Lemma loc_lookup df m c :
  data (loc df m) !! c = select_series m <$> data df !! c.
Proof. unfold loc. simpl. apply lookup_fmap. Qed.

Lemma loc_loc {B} df m (f : B → bool) ys :
  length m = length ys →
  loc (loc df m) (f <$> select m ys) = loc df (zip_with andb m (f <$> ys)).
Proof.
  intros Hlen. unfold loc; simpl. f_equal.
  - by apply select_select.
  - rewrite <-map_fmap_compose. apply map_fmap_ext. intros c s _.
    unfold select_series; simpl. f_equal. by apply select_select.
Qed.

Lemma loc_all df : wf df → loc df (replicate (len df) true) = df.
Proof.
  intros Hwf. destruct df as [idx cols]. unfold loc; simpl.
  f_equal; [by apply select_all|].
  apply map_eq. intros c. rewrite lookup_fmap.
  destruct (cols !! c) as [[d vs]|] eqn:Hc; [|done]. simpl.
  unfold select_series; simpl. do 2 f_equal.
  apply select_all. by rewrite <-(wf_lookup (mkFrame idx cols) c _ Hwf Hc).
Qed.

Lemma wf_loc df m : wf df → wf (loc df m).
Proof.
  intros Hwf c s. rewrite loc_lookup.
  destruct (data df !! c) as [s0|] eqn:Hc; [|done]. intros [= <-].
  destruct (Hwf c s0 Hc) as [Hlen Hcat]. split; [|done].
  unfold len, loc; simpl. apply length_select_same. exact Hlen.
Qed.

(** ** Row filtering *)

Lemma holds_rows_all df : wf df → holds_rows df df (λ _, true).
Proof.
  intros Hwf. exists (replicate (len df) true). split_and!.
  - by rewrite loc_all.
  - apply length_replicate.
  - intros i Hi. by apply lookup_replicate_2.
Qed.

Lemma holds_rows_ext df fdf g g' :
  (∀ i, g i = g' i) → holds_rows df fdf g → holds_rows df fdf g'.
Proof.
  intros Hg (m & -> & Hlen & Hm). exists m. split_and!; [done..|].
  intros i Hi. rewrite <-Hg. by apply Hm.
Qed.

Lemma holds_rows_len df fdf g :
  holds_rows df fdf g →
  len fdf = length (filter (λ i, g i = true) (seq 0 (len df))).
Proof.
  intros (m & -> & Hlen & Hm). unfold len at 1, loc; simpl.
  rewrite <-Hlen in Hm. rewrite (mask_of_lookups g m Hm), Hlen.
  apply length_select_fmap. by rewrite length_seq.
Qed.

(** One [if selected: filtered_df = filtered_df[...]] statement. *)
Lemma keep_rows df fdf fdf' g sel col
    (lab : cell → option string) (mask : Series → list bool) :
  (∀ s, mask s = (λ c, member sel (lab c)) <$> values s) →
  wf df →
  holds_rows df fdf g →
  (if truthy sel then
     let* s := getitem fdf col in
     Ok (loc fdf (mask s))
   else Ok fdf) = Ok fdf' →
  holds_rows df fdf' (λ i, g i && constraint sel (cell_at df col i ≫= lab)).
Proof.
  intros Hmask Hwf (m & -> & Hlen & Hm) Hstep. unfold constraint.
  destruct (truthy sel); ok_inv.
  - rename x into s, H into Hs. subst fdf'. rewrite Hmask.
    apply getitem_Ok in Hs. rewrite loc_lookup in Hs.
    destruct (data df !! col) as [s0|] eqn:Hcol; [|done].
    injection Hs as <-. simpl.
    pose proof (wf_lookup _ _ _ Hwf Hcol) as Hs0.
    rewrite loc_loc by lia.
    eexists. split_and!; [done|..].
    + rewrite length_zip_with, length_fmap. lia.
    + intros i Hi. rewrite lookup_zip_with, (Hm i Hi), list_lookup_fmap.
      unfold cell_at. rewrite Hcol. simpl.
      destruct (lookup_lt_is_Some_2 (values s0) i) as [y Hy]; [lia|].
      by rewrite Hy.
  - subst fdf'. exists m. split_and!; [done..|].
    intros i Hi. by rewrite andb_true_r, Hm.
Qed.

Lemma isin_member s sel :
  isin s (chosen sel) = (λ c, member sel (text_of c)) <$> values s.
Proof. unfold isin. apply list_fmap_ext. by intros _ [x|q|] _. Qed.

Section filter_facts.
Variable str_of_number : Qc → string.

Lemma isin_astype_member s sel :
  isin (astype_str str_of_number s) (chosen sel)
  = (λ c, member sel (Some (label_text str_of_number c))) <$> values s.
Proof.
  unfold isin, astype_str. simpl. rewrite <-list_fmap_compose.
  apply list_fmap_ext. by intros _ [x|q|] _.
Qed.

(** The filtered frame holds the rows that satisfy every active
    constraint. *)
Lemma filter_rows_holds df ss sh sp fdf :
  wf df →
  filter_rows str_of_number df ss sh sp = Ok fdf →
  holds_rows df fdf (row_satisfies str_of_number df ss sh sp).
Proof.
  intros Hwf Hf. unfold filter_rows in Hf.
  apply bind_Ok in Hf as (d1 & H1 & Hf).
  apply bind_Ok in Hf as (d2 & H2 & H3).
  pose proof (keep_rows _ _ _ _ _ _ text_of (λ s, isin s (chosen ss))
                (λ s, isin_member s ss) Hwf (holds_rows_all df Hwf) H1) as K1.
  pose proof (keep_rows _ _ _ _ _ _ text_of (λ s, isin s (chosen sh))
                (λ s, isin_member s sh) Hwf K1 H2) as K2.
  pose proof (keep_rows _ _ _ _ _ _ (λ c, Some (label_text str_of_number c))
                (λ s, isin (astype_str str_of_number s) (chosen sp))
                (λ s, isin_astype_member s sp) Hwf K2 H3) as K3.
  revert K3. apply holds_rows_ext. intros i. unfold row_satisfies. simpl.
  by destruct (cell_at df "Precipitation_Bin" i).
Qed.

Lemma filter_rows_len df ss sh sp fdf :
  wf df →
  filter_rows str_of_number df ss sh sp = Ok fdf →
  len fdf = matching_rows str_of_number df ss sh sp.
Proof.
  intros Hwf Hf. apply (holds_rows_len df).
  by apply filter_rows_holds.
Qed.

Lemma filter_rows_wf df ss sh sp fdf :
  wf df → filter_rows str_of_number df ss sh sp = Ok fdf → wf fdf.
Proof.
  intros Hwf Hf. destruct (filter_rows_holds _ _ _ _ _ Hwf Hf) as (m & -> & _).
  by apply wf_loc.
Qed.
End filter_facts.

(** ** Sorting *)

Section insertion_sort_facts.
Context {A : Type} (le : A → A → bool).

Lemma insert_by_Permutation x l : insert_by le x l ≡ₚ x :: l.
Proof.
  induction l as [|y l IH]; simpl; [done|].
  destruct (le x y); [done|]. by rewrite IH, Permutation_swap.
Qed.

Lemma sort_by_Permutation l : sort_by le l ≡ₚ l.
Proof.
  induction l as [|x l IH]; simpl; [done|].
  by rewrite insert_by_Permutation, IH.
Qed.

Lemma length_sort_by l : length (sort_by le l) = length l.
Proof. by rewrite sort_by_Permutation. Qed.

Lemma elem_of_sort_by x l : x ∈ sort_by le l ↔ x ∈ l.
Proof. by rewrite sort_by_Permutation. Qed.

Section sorted.
Context (R : relation A).
Hypothesis le_true : ∀ x y, le x y = true → R x y.
Hypothesis le_false : ∀ x y, le x y = false → R y x.

Lemma HdRel_insert_by x y l : R y x → HdRel R y l → HdRel R y (insert_by le x l).
Proof.
  intros Hyx [|z l' Hyz]; simpl; [by constructor|].
  destruct (le x z); by constructor.
Qed.

Lemma Sorted_insert_by x l : Sorted R l → Sorted R (insert_by le x l).
Proof.
  induction 1 as [|y l Hl IH Hhd]; simpl; [by repeat constructor|].
  destruct (le x y) eqn:Hxy.
  - apply le_true in Hxy. by repeat constructor.
  - constructor; [done|]. apply HdRel_insert_by; [|done]. by apply le_false.
Qed.

Lemma Sorted_sort_by l : Sorted R (sort_by le l).
Proof.
  induction l as [|x l IH]; simpl; [constructor|]. by apply Sorted_insert_by.
Qed.
End sorted.
End insertion_sort_facts.

(** Rows taken by position. *)

Lemma take_rows_cons {A} (t : list A) i ix x :
  t !! i = Some x → take_rows t (i :: ix) = x :: take_rows t ix.
Proof. intros Hi. unfold take_rows. cbn. by rewrite Hi. Qed.

Lemma take_rows_nil {A} ix : take_rows (@nil A) ix = [].
Proof. induction ix as [|i ix IH]; [done|]. unfold take_rows in *. by cbn. Qed.

Lemma take_rows_app {A} (t : list A) ix jx :
  take_rows t (ix ++ jx) = take_rows t ix ++ take_rows t jx.
Proof.
  induction ix as [|i ix IH]; [done|].
  unfold take_rows in *. cbn. destruct (t !! i); cbn; by rewrite IH.
Qed.

Lemma take_rows_reverse {A} (t : list A) ix :
  take_rows t (reverse ix) = reverse (take_rows t ix).
Proof.
  induction ix as [|i ix IH]; [done|].
  rewrite reverse_cons, take_rows_app, IH.
  destruct (t !! i) as [x|] eqn:Hi.
  - rewrite !(take_rows_cons _ _ _ x Hi). by rewrite reverse_cons.
  - unfold take_rows. cbn. rewrite Hi. by rewrite app_nil_r.
Qed.

Lemma take_rows_fmap {A B} (f : A → B) (t : list A) ix :
  take_rows (f <$> t) ix = f <$> take_rows t ix.
Proof.
  induction ix as [|i ix IH]; [done|].
  unfold take_rows in *. cbn. rewrite list_lookup_fmap.
  destruct (t !! i); cbn; by rewrite IH.
Qed.

Lemma take_rows_seq n ix : Forall (λ i, i < n) ix → take_rows (seq 0 n) ix = ix.
Proof.
  induction 1 as [|i ix Hi _ IH]; [done|].
  rewrite (take_rows_cons _ _ _ i); [by rewrite IH|]. by apply lookup_seq_lt.
Qed.

Lemma take_rows_all_from {A} (pre t : list A) :
  take_rows (pre ++ t) (seq (length pre) (length t)) = t.
Proof.
  revert pre. induction t as [|x t IH]; intros pre; [done|].
  cbn [length seq]. rewrite (take_rows_cons _ _ _ x).
  - f_equal. specialize (IH (pre ++ [x])).
    rewrite <-app_assoc, length_app in IH. cbn in IH.
    by rewrite Nat.add_1_r in IH.
  - by apply list_lookup_middle.
Qed.

Lemma take_rows_all {A} (t : list A) : take_rows t (seq 0 (length t)) = t.
Proof. apply (take_rows_all_from [] t). Qed.

Lemma take_rows_Permutation_ix {A} (t : list A) ix jx :
  ix ≡ₚ jx → take_rows t ix ≡ₚ take_rows t jx.
Proof.
  unfold take_rows. induction 1 as [|i ix jx _ IH|i j ix|ix jx kx _ IH1 _ IH2]; cbn.
  - done.
  - destruct (t !! i); by rewrite IH.
  - destruct (t !! i), (t !! j); try done. apply Permutation_swap.
  - by rewrite IH1.
Qed.

Lemma take_rows_Permutation {A} (t : list A) ix :
  ix ≡ₚ seq 0 (length t) → take_rows t ix ≡ₚ t.
Proof.
  intros Hix. rewrite (take_rows_Permutation_ix _ _ _ Hix). by rewrite take_rows_all.
Qed.

(** Reading the rows through the reversed positions is reading the reversed
    rows. *)
Lemma take_rows_reverse_seq {A} (t : list A) ix :
  Forall (λ i, i < length t) ix →
  take_rows t (take_rows (reverse (seq 0 (length t))) ix) = take_rows (reverse t) ix.
Proof.
  induction 1 as [|i ix Hi _ IH]; [done|].
  rewrite (take_rows_cons (reverse (seq 0 (length t))) i ix (length t - S i)).
  2:{ rewrite reverse_lookup by (by rewrite length_seq).
      rewrite length_seq. apply lookup_seq_lt. lia. }
  destruct (lookup_lt_is_Some_2 t (length t - S i)) as [x Hx]; [lia|].
  rewrite (take_rows_cons t _ _ x Hx), (take_rows_cons (reverse t) i ix x).
  - by rewrite IH.
  - by rewrite reverse_lookup.
Qed.

Lemma elem_of_take_rows {A} (t : list A) ix x : x ∈ take_rows t ix → x ∈ t.
Proof.
  unfold take_rows. intros (i & _ & Hi)%list_elem_of_omap.
  by eapply list_elem_of_lookup_2.
Qed.

Lemma take_rows_pairs {A} (t : list A) (l : list (nat * A)) :
  Forall (λ p, t !! p.1 = Some p.2) l → take_rows t (l.*1) = l.*2.
Proof.
  induction 1 as [|[i k] l Hik _ IH]; [done|].
  rewrite !fmap_cons. cbn [fst snd] in *.
  by rewrite (take_rows_cons _ _ _ k Hik), IH.
Qed.

Lemma StronglySorted_counts (l : counts_table) :
  StronglySorted le (snd <$> l) → StronglySorted count_le l.
Proof.
  induction l as [|a l IH]; [constructor|].
  rewrite fmap_cons. intros Hs. apply StronglySorted_inv in Hs as [Hl Ha].
  constructor; [by apply IH|].
  apply Forall_forall. intros b Hb. unfold count_le.
  apply (proj1 (Forall_forall _ _) Ha), list_elem_of_fmap. by exists b.
Qed.

(** Whatever the argsort does, sorted rows are rows of the table. *)
Lemma elem_of_sort_values argsort ascending (t : counts_table) e :
  e ∈ sort_values argsort ascending t → e ∈ t.
Proof. apply elem_of_take_rows. Qed.

(** ** [sort_values], for every argsort that sorts *)

Section sort_values_facts.
Variable argsort : list nat → list nat.
Hypothesis argsort_sorts : sorts argsort.

Lemma argsort_lt keys : Forall (λ i, i < length keys) (argsort keys).
Proof.
  destruct (argsort_sorts keys) as [Hp _].
  apply Forall_forall. intros i Hi. rewrite Hp in Hi.
  apply elem_of_seq in Hi. lia.
Qed.

Lemma sort_values_asc_rows t :
  sort_values_asc argsort t = take_rows t (argsort (snd <$> t)).
Proof.
  unfold sort_values_asc, sort_values, nargsort.
  by rewrite take_rows_seq by apply argsort_lt.
Qed.

Lemma sort_values_desc_rows t :
  sort_values_desc argsort t =
  reverse (take_rows (reverse t) (argsort (reverse (snd <$> t)))).
Proof.
  unfold sort_values_desc, sort_values, nargsort.
  rewrite take_rows_reverse. f_equal.
  rewrite length_fmap. apply take_rows_reverse_seq.
  pose proof (argsort_lt (reverse (snd <$> t))) as Hlt.
  by rewrite length_reverse, length_fmap in Hlt.
Qed.

Lemma sort_values_asc_Permutation t : sort_values_asc argsort t ≡ₚ t.
Proof.
  rewrite sort_values_asc_rows. apply take_rows_Permutation.
  destruct (argsort_sorts (snd <$> t)) as [Hp _]. by rewrite length_fmap in Hp.
Qed.

Lemma sort_values_desc_Permutation t : sort_values_desc argsort t ≡ₚ t.
Proof.
  rewrite sort_values_desc_rows, reverse_Permutation.
  transitivity (reverse t); [|apply reverse_Permutation].
  apply take_rows_Permutation.
  destruct (argsort_sorts (reverse (snd <$> t))) as [Hp _].
  by rewrite !length_reverse, length_fmap in *.
Qed.

Lemma length_sort_values_desc t : length (sort_values_desc argsort t) = length t.
Proof. by rewrite sort_values_desc_Permutation. Qed.

Lemma sort_values_asc_sorted t : StronglySorted count_le (sort_values_asc argsort t).
Proof.
  rewrite sort_values_asc_rows. apply StronglySorted_counts.
  rewrite <-take_rows_fmap. apply argsort_sorts.
Qed.

Lemma sort_values_desc_sorted t :
  StronglySorted (flip count_le) (sort_values_desc argsort t).
Proof.
  rewrite sort_values_desc_rows.
  apply Sorted_StronglySorted.
  { intros a b c. unfold flip, count_le. lia. }
  apply Sorted_reverse, StronglySorted_Sorted, StronglySorted_counts.
  rewrite <-take_rows_fmap, fmap_reverse. apply argsort_sorts.
Qed.
End sort_values_facts.

(** ** Two argsorts that sort *)

Section insertion_argsort_facts.
Variable test : nat → nat → bool.
Hypothesis test_true : ∀ x y, test x y = true → x ≤ y.
Hypothesis test_false : ∀ x y, test x y = false → y ≤ x.

Lemma insertion_argsort_sorts : sorts (insertion_argsort test).
Proof.
  intros keys. unfold insertion_argsort.
  set (ps := zip (seq 0 (length keys)) keys).
  set (l := sort_by _ ps).
  assert (Hp : l ≡ₚ ps) by apply sort_by_Permutation.
  split.
  - rewrite Hp. unfold ps. rewrite fst_zip; [done|]. by rewrite length_seq.
  - assert (Hl : Forall (λ p : nat * nat, keys !! p.1 = Some p.2) l).
    { apply Forall_forall. intros [i k] Hik. rewrite Hp in Hik.
      apply elem_of_lookup_zip_with in Hik as (j & i' & k' & Heq & Hi & Hk).
      inversion Heq; subst. apply lookup_seq in Hi as [-> _]. done. }
    rewrite (take_rows_pairs _ _ Hl).
    apply (StronglySorted_fmap snd (λ a b : nat * nat, a.2 ≤ b.2)); [done|].
    apply Sorted_StronglySorted; [intros a b c; lia|].
    apply Sorted_sort_by; intros a b Hab.
    + by apply test_true.
    + by apply test_false.
Qed.
End insertion_argsort_facts.

Lemma stable_argsort_sorts : sorts stable_argsort.
Proof.
  apply insertion_argsort_sorts; intros x y Hxy.
  - by apply Nat.leb_le.
  - apply Nat.leb_gt in Hxy. lia.
Qed.

Lemma last_first_argsort_sorts : sorts last_first_argsort.
Proof.
  apply insertion_argsort_sorts; intros x y Hxy.
  - apply Nat.ltb_lt in Hxy. lia.
  - by apply Nat.ltb_ge.
Qed.

Lemma StronglySorted_take {A} (R : relation A) n l :
  StronglySorted R l → StronglySorted R (take n l).
Proof.
  intros Hl. rewrite <-(take_drop n l) in Hl.
  by apply StronglySorted_app_1_l in Hl.
Qed.

(** ** Distinct values and group counts *)

Lemma elem_of_unique_foldl (x : cell) xs seen :
  x ∈ foldl (λ seen x, if decide (x ∈ seen) then seen else seen ++ [x]) seen xs
  ↔ x ∈ seen ∨ x ∈ xs.
Proof.
  revert seen. induction xs as [|y xs IH]; intros seen; simpl.
  - rewrite elem_of_nil. tauto.
  - rewrite IH, elem_of_cons. destruct (decide (y ∈ seen)) as [Hy|Hy].
    + split; [tauto|]. intros [?|[->|?]]; tauto.
    + rewrite elem_of_app, list_elem_of_singleton. tauto.
Qed.

Lemma elem_of_unique x xs : x ∈ unique xs ↔ x ∈ xs.
Proof. unfold unique. rewrite elem_of_unique_foldl, elem_of_nil. tauto. Qed.

Lemma NoDup_unique_foldl (xs seen : list cell) :
  NoDup seen →
  NoDup (foldl (λ seen x, if decide (x ∈ seen) then seen else seen ++ [x]) seen xs).
Proof.
  revert seen. induction xs as [|y xs IH]; intros seen Hseen; simpl; [done|].
  apply IH. destruct (decide (y ∈ seen)); [done|].
  apply NoDup_app. split_and!; [done| |apply NoDup_singleton].
  intros z Hz ->%list_elem_of_singleton. done.
Qed.

Lemma NoDup_unique xs : NoDup (unique xs).
Proof. apply NoDup_unique_foldl, NoDup_nil_2. Qed.

Lemma length_unique xs : length (unique xs) = length (remove_dups xs).
Proof.
  apply Permutation_length, NoDup_Permutation.
  - apply NoDup_unique.
  - apply NoDup_remove_dups.
  - intros x. by rewrite elem_of_unique, elem_of_remove_dups.
Qed.

Lemma elem_of_dropna x xs : x ∈ dropna xs ↔ x ≠ NaN ∧ x ∈ xs.
Proof. unfold dropna. by rewrite list_elem_of_filter. Qed.

Lemma count_positive k xs : k ∈ xs → 1 ≤ count k xs.
Proof.
  intros Hk. unfold count.
  assert (k ∈ filter (λ c, c = k) xs) as Hin by by apply list_elem_of_filter.
  destruct (filter _ xs); [by apply elem_of_nil in Hin|simpl; lia].
Qed.

(** The keys of a grouped table all occur in the column. *)
Lemma groupby_size_positive df c t :
  groupby_size df c = Ok t → Forall (λ e, 1 ≤ e.2) t.
Proof.
  unfold groupby_size. intros Ht. ok_inv. subst t. rename x into s.
  apply Forall_fmap, Forall_forall. intros k Hk. simpl.
  apply count_positive. destruct (dtype_of s).
  - by apply elem_of_sort_by, elem_of_unique, elem_of_dropna in Hk as [_ ?].
  - by apply elem_of_sort_by, elem_of_unique, elem_of_dropna in Hk as [_ ?].
  - by apply list_elem_of_filter in Hk as [? _].
Qed.

Lemma groupby_size_length df c t s :
  series_ok (len df) s →
  data df !! c = Some s →
  groupby_size df c = Ok t →
  length t ≤ length (remove_dups (dropna (values s))).
Proof.
  intros [_ Hcats] Hs. unfold groupby_size, getitem. rewrite Hs. simpl.
  intros [= <-]. rewrite length_fmap. destruct (dtype_of s) as [| |cats].
  - by rewrite length_sort_by, length_unique.
  - by rewrite length_sort_by, length_unique.
  - apply submseteq_length, NoDup_submseteq.
    + apply NoDup_filter, NoDup_fmap_2; [|done]. by intros ?? [=].
    + intros k [Hk Hin]%list_elem_of_filter.
      apply elem_of_remove_dups, elem_of_dropna. split; [|done].
      apply list_elem_of_fmap in Hin as (l & -> & _). done.
Qed.

(** ** Picking the largest count *)


Lemma idxmax_nonempty t : t ≠ [] → ∃ c, idxmax t = Ok c.
Proof. destruct t; [done|]. simpl. eauto. Qed.

Lemma value_counts_category argsort s cats :
  sorts argsort →
  dtype_of s = Category cats →
  value_counts argsort s ≡ₚ (λ k, (k, count k (values s))) <$> (Str <$> cats).
Proof.
  intros Hsorts Hs. unfold value_counts. rewrite Hs.
  by apply sort_values_desc_Permutation.
Qed.

(** ** Inversion of the callback *)

Lemma aggregate_Ok argsort share fdf r :
  aggregate argsort share fdf = Ok r →
  ∃ sev hg avg severity by_hour by_precip by_state,
    most_common_severity_of fdf = Ok sev ∧
    busiest_hour_group_of argsort fdf = Ok hg ∧
    avg_precip_of fdf = Ok avg ∧
    getitem fdf "Severity" = Ok severity ∧
    groupby_size fdf "Hour_Group" = Ok by_hour ∧
    groupby_size fdf "Precipitation_Bin" = Ok by_precip ∧
    groupby_size fdf "State" = Ok by_state ∧
    r = mkOutputs (len fdf) sev hg avg (value_counts_percent argsort share severity)
          by_hour (sort_values_asc argsort by_hour) by_precip
          (head 10 (sort_values_desc argsort by_state)) fdf.
Proof.
  unfold aggregate. intros Hr.
  apply bind_Ok in Hr as (sev & Hsev & Hr).
  apply bind_Ok in Hr as (hg & Hhg & Hr).
  apply bind_Ok in Hr as (avg & Havg & Hr).
  apply bind_Ok in Hr as (severity & Hseverity & Hr).
  apply bind_Ok in Hr as (by_hour & Hhour & Hr).
  apply bind_Ok in Hr as (by_precip & Hprecip & Hr).
  apply bind_Ok in Hr as (by_state & Hstate & Hr).
  apply bind_Ok in Hr as (map & Hmap & Hr).
  unfold scatter_mapbox in Hmap. destruct (forallb _ _); [|done].
  injection Hmap as <-. injection Hr as <-.
  by exists sev, hg, avg, severity, by_hour, by_precip, by_state.
Qed.

Lemma same_columns_loc df m : same_columns df (loc df m).
Proof. intros c. rewrite loc_lookup. by destruct (data df !! c). Qed.

Lemma same_columns_step df fdf sel col (mask : Series → list bool) :
  (if truthy sel then
     let* s := getitem df col in
     Ok (loc df (mask s))
   else Ok df) = Ok fdf →
  same_columns df fdf.
Proof.
  destruct (truthy sel); intros Hf; ok_inv; subst fdf.
  - apply same_columns_loc.
  - done.
Qed.

Section pipeline_facts.
Variable argsort : list nat → list nat.
Variable share : nat → nat → Qc.
Variable to_datetime_hour : Series → result Series.
Variable str_of_number : Qc → string.

Lemma filter_rows_same_columns df ss sh sp fdf :
  filter_rows str_of_number df ss sh sp = Ok fdf → same_columns df fdf.
Proof.
  unfold filter_rows. intros Hf.
  apply bind_Ok in Hf as (d1 & H1 & Hf).
  apply bind_Ok in Hf as (d2 & H2 & H3).
  apply (same_columns_step _ _ _ _ (λ s, isin s (chosen ss))) in H1.
  apply (same_columns_step _ _ _ _ (λ s, isin s (chosen sh))) in H2.
  apply (same_columns_step _ _ _ _
           (λ s, isin (astype_str str_of_number s) (chosen sp))) in H3.
  intros c. by rewrite H3, H2, H1.
Qed.

Lemma update_dashboard_Ok df ss sh sp r :
  update_dashboard argsort share str_of_number df ss sh sp = Ok r ↔
  ∃ fdf, filter_rows str_of_number df ss sh sp = Ok fdf ∧ aggregate argsort share fdf = Ok r.
Proof. apply bind_Ok. Qed.

(** Lines 12-22, step by step. *)
Lemma prepare_Ok raw df :
  prepare to_datetime_hour raw = Ok df →
  ∃ df1 hour hour_group,
    (df1 = raw ∧ is_Some (data raw !! "Hour") ∨
     data raw !! "Hour" = None ∧
     ∃ start h, data raw !! "Start_Time" = Some start ∧
                to_datetime_hour start = Ok h ∧ df1 = setitem raw "Hour" h) ∧
    data df1 !! "Hour" = Some hour ∧
    cut hour hour_bins hour_labels = Ok hour_group ∧
    (data df1 !! "Precipitation(in)" = None ∧
     df = setitem df1 "Hour_Group" hour_group ∨
     ∃ precip precip_bin,
       data df1 !! "Precipitation(in)" = Some precip ∧
       cut precip precip_bins precip_labels = Ok precip_bin ∧
       df = setitem (setitem df1 "Hour_Group" hour_group)
              "Precipitation_Bin" precip_bin).
Proof.
  unfold prepare. intros Hp.
  apply bind_Ok in Hp as (df1 & H1 & Hp).
  apply bind_Ok in Hp as (hour & Hhour%getitem_Ok & Hp).
  apply bind_Ok in Hp as (hour_group & Hcut & Hp).
  exists df1, hour, hour_group. split_and!; [|done..|].
  - destruct (has_column raw "Hour") eqn:Hh; simpl in H1.
    + injection H1 as <-. left. by apply has_column_true in Hh.
    + apply has_column_false in Hh. right. split; [done|].
      apply bind_Ok in H1 as (start & Hstart%getitem_Ok & H1).
      apply bind_Ok in H1 as (h & Hh' & [= <-]). by exists start, h.
  - destruct (has_column _ "Precipitation(in)") eqn:Hc.
    + apply bind_Ok in Hp as (precip & Hprecip%getitem_Ok & Hp).
      apply bind_Ok in Hp as (precip_bin & Hcut' & [= <-]).
      right. exists precip, precip_bin. split_and!; [|done..].
      simpl in Hprecip. by rewrite lookup_insert_ne in Hprecip.
    + injection Hp as <-. left. split; [|done].
      apply has_column_false in Hc. simpl in Hc.
      by rewrite lookup_insert_ne in Hc.
Qed.
End pipeline_facts.

Lemma length_filter_impl {A} (P Q : A → Prop)
    `{!∀ x, Decision (P x), !∀ x, Decision (Q x)} (l : list A) :
  (∀ x, P x → Q x) → length (filter P l) ≤ length (filter Q l).
Proof.
  intros HPQ. induction l as [|x l IH]; [done|]. rewrite !filter_cons.
  destruct (decide (P x)) as [HP|HP].
  - rewrite decide_True by auto. simpl. lia.
  - destruct (decide (Q x)); simpl; lia.
Qed.

Lemma constraint_tightens old new v :
  tightens old new → constraint new v = true → constraint old v = true.
Proof.
  unfold constraint. intros [Hold|[Hnew Hsub]]; [by rewrite Hold|].
  rewrite Hnew. destruct (truthy old); [|done].
  destruct v as [x|]; simpl; [|done].
  rewrite !bool_decide_eq_true. apply Hsub.
Qed.

(** ** The filter-aggregate pipeline *)

Section pipeline.
Variable argsort : list nat → list nat.
Variable share : nat → nat → Qc.
Variable str_of_number : Qc → string.

(** C1: the total returned by the callback is the number of rows of the
    prepared table that satisfy every active constraint at once: state among
    the chosen states, hour group among the chosen hour groups, textual
    label of the precipitation bucket among the chosen buckets; a dropdown
    without a choice constrains nothing. *)
Theorem total_counts_matching_rows df ss sh sp r :
  wf df →
  update_dashboard argsort share str_of_number df ss sh sp = Ok r →
  total_accidents r
  = length (filter (λ i, constraint ss (cell_at df "State" i ≫= text_of) &&
                         constraint sh (cell_at df "Hour_Group" i ≫= text_of) &&
                         constraint sp (label_text str_of_number <$>
                                          cell_at df "Precipitation_Bin" i) = true)
              (seq 0 (len df))).
Proof.
  intros Hwf (fdf & Hf & Hr)%update_dashboard_Ok.
  apply aggregate_Ok in Hr
    as (? & ? & ? & ? & ? & ? & ? & _ & _ & _ & _ & _ & _ & _ & ->).
  cbn [total_accidents].
  apply (filter_rows_len str_of_number df ss sh sp fdf Hwf Hf).
Qed.

(** C7: every row of the table of counts by hour group (as grouped, and as
    sorted for the bar chart) and of the table of counts by precipitation
    bucket has a count of at least one. *)
Theorem grouped_counts_positive df ss sh sp r :
  update_dashboard argsort share str_of_number df ss sh sp = Ok r →
  Forall (λ e, 1 ≤ e.2) (accidents_by_hour r) ∧
  Forall (λ e, 1 ≤ e.2) (fig_hour r) ∧
  Forall (λ e, 1 ≤ e.2) (accidents_by_precip r).
Proof.
  intros (fdf & Hf & Hr)%update_dashboard_Ok.
  apply aggregate_Ok in Hr
    as (? & ? & ? & ? & by_hour & by_precip & ? & _ & _ & _ & _ & Hh & Hp & _ & ->).
  simpl. apply groupby_size_positive in Hh, Hp. split_and!; [done| |done].
  apply Forall_forall. intros e He%elem_of_sort_values.
  by apply (proj1 (Forall_forall _ _) Hh).
Qed.

(** C8: tightening the selection (a choice where there was none, or fewer
    values of a choice that stays non-empty) never raises the total. *)
Theorem filtering_is_monotone df ss sh sp ss' sh' sp' r r' :
  wf df →
  tightens ss ss' → tightens sh sh' → tightens sp sp' →
  update_dashboard argsort share str_of_number df ss sh sp = Ok r →
  update_dashboard argsort share str_of_number df ss' sh' sp' = Ok r' →
  total_accidents r' ≤ total_accidents r.
Proof.
  intros Hwf Hs Hh Hp (fdf & Hf & Hr)%update_dashboard_Ok
    (fdf' & Hf' & Hr')%update_dashboard_Ok.
  apply aggregate_Ok in Hr
    as (? & ? & ? & ? & ? & ? & ? & _ & _ & _ & _ & _ & _ & _ & ->).
  apply aggregate_Ok in Hr'
    as (? & ? & ? & ? & ? & ? & ? & _ & _ & _ & _ & _ & _ & _ & ->).
  cbn [total_accidents].
  rewrite (filter_rows_len _ _ _ _ _ _ Hwf Hf), (filter_rows_len _ _ _ _ _ _ Hwf Hf').
  apply length_filter_impl. intros i. unfold row_satisfies.
  rewrite !andb_true_iff. intros [[H1 H2] H3].
  split_and!; eapply constraint_tightens; eassumption.
Qed.

(** C10: a dropdown holding the empty list acts as one that was never
    touched, on each of the three dimensions. *)
Theorem empty_selection_is_absent df ss sh sp :
  update_dashboard argsort share str_of_number df (Some []) sh sp
  = update_dashboard argsort share str_of_number df None sh sp ∧
  update_dashboard argsort share str_of_number df ss (Some []) sp
  = update_dashboard argsort share str_of_number df ss None sp ∧
  update_dashboard argsort share str_of_number df ss sh (Some [])
  = update_dashboard argsort share str_of_number df ss sh None.
Proof. unfold update_dashboard, filter_rows. by cbn [truthy]. Qed.

(** C6, as the code has it: for every argsort that sorts, the top-states
    table has at most ten rows and at most one row per distinct state of the
    filtered rows, and its counts never increase from one row to the next.
    The order of states with equal counts is the argsort's. *)
Theorem top_states_ordered df ss sh sp r :
  sorts argsort →
  wf df →
  update_dashboard argsort share str_of_number df ss sh sp = Ok r →
  ∃ fdf by_state,
    filter_rows str_of_number df ss sh sp = Ok fdf ∧
    groupby_size fdf "State" = Ok by_state ∧
    length (accidents_by_state r) ≤ 10 ∧
    length (accidents_by_state r) ≤ distinct_states fdf ∧
    StronglySorted (λ a b, b.2 ≤ a.2) (accidents_by_state r).
Proof.
  intros Hsorts Hwf (fdf & Hf & Hr)%update_dashboard_Ok.
  apply aggregate_Ok in Hr
    as (? & ? & ? & ? & ? & ? & by_state & _ & _ & _ & _ & _ & _ & Hst & ->).
  exists fdf, by_state. cbn [accidents_by_state]. unfold head.
  split_and!; [done..| | |].
  - rewrite length_take. lia.
  - rewrite length_take, length_sort_values_desc by done.
    pose proof (filter_rows_wf _ _ _ _ _ _ Hwf Hf) as Hwf'.
    unfold distinct_states.
    destruct (data fdf !! "State") as [s|] eqn:Hs.
    + pose proof (groupby_size_length _ _ _ _ (Hwf' _ _ Hs) Hs Hst). lia.
    + unfold groupby_size, getitem in Hst. by rewrite Hs in Hst.
  - by apply StronglySorted_take, sort_values_desc_sorted.
Qed.
End pipeline.

(** ** Preparation and the busiest hour group *)

Lemma cut_dtype s bins labels s' :
  cut s bins labels = Ok s' → dtype_of s' = Category labels.
Proof. unfold cut. destruct (dtype_of s); by intros [= <-]. Qed.

Lemma same_columns_lookup a b c s :
  same_columns a b → data a !! c = Some s →
  ∃ s', data b !! c = Some s' ∧ dtype_of s' = dtype_of s.
Proof.
  intros Hab Hs. specialize (Hab c). rewrite Hs in Hab.
  destruct (data b !! c) as [s'|]; [|done]. injection Hab as Hd. by exists s'.
Qed.

Lemma same_columns_lookup_None a b c :
  same_columns a b → data a !! c = None → data b !! c = None.
Proof.
  intros Hab Hs. specialize (Hab c). rewrite Hs in Hab.
  by destruct (data b !! c).
Qed.

Lemma not_elem_of_cons3 {A} (x a b c : A) (l : list A) :
  x ∉ a :: b :: c :: l → x ≠ a ∧ x ≠ b ∧ x ≠ c ∧ x ∉ l.
Proof. rewrite !not_elem_of_cons. tauto. Qed.

Section preparation.
Variable argsort : list nat → list nat.
Variable share : nat → nat → Qc.
Variable to_datetime_hour : Series → result Series.
Variable str_of_number : Qc → string.

Lemma prepare_hour_group raw df :
  prepare to_datetime_hour raw = Ok df →
  ∃ s, data df !! "Hour_Group" = Some s ∧ dtype_of s = Category hour_labels.
Proof.
  intros (df1 & hour & hg & _ & _ & Hcut%cut_dtype & Hp)%prepare_Ok.
  exists hg. split; [|done].
  destruct Hp as [[_ ->]|(precip & pb & _ & _ & ->)]; simpl.
  - by rewrite lookup_insert_eq.
  - rewrite lookup_insert_ne by done. by rewrite lookup_insert_eq.
Qed.

Lemma prepare_without_precipitation raw df :
  data raw !! "Precipitation(in)" = None →
  prepare to_datetime_hour raw = Ok df →
  data df !! "Precipitation_Bin" = data raw !! "Precipitation_Bin".
Proof.
  intros Hraw (df1 & hour & hg & H1 & _ & _ & Hp)%prepare_Ok.
  assert (∀ c, c ≠ "Hour" → data df1 !! c = data raw !! c) as Hother.
  { destruct H1 as [[-> _]|(_ & start & h & _ & _ & ->)]; [done|].
    intros c Hc. simpl. by rewrite lookup_insert_ne. }
  destruct Hp as [[_ ->]|(precip & pb & Hsome & _ & _)]; simpl.
  - rewrite lookup_insert_ne by done. by apply Hother.
  - rewrite Hother, Hraw in Hsome; done.
Qed.

(** C5, as the code has it: preparation keeps the rows and sets the
    [Hour_Group] column from the hour; it adds an [Hour] column when the raw
    table has none, and sets [Precipitation_Bin] only when the raw table has
    a precipitation column, leaving it as it was (absent, if it was absent)
    otherwise.  Every other column is the raw table's. *)
Theorem prepare_adds_derived_columns raw df :
  prepare to_datetime_hour raw = Ok df →
  index df = index raw ∧
  (∀ c, c ∉ ["Hour"; "Hour_Group"; "Precipitation_Bin"] →
        data df !! c = data raw !! c) ∧
  (is_Some (data raw !! "Hour") → data df !! "Hour" = data raw !! "Hour") ∧
  (∃ hour hour_group,
      data df !! "Hour" = Some hour ∧
      cut hour hour_bins hour_labels = Ok hour_group ∧
      data df !! "Hour_Group" = Some hour_group) ∧
  match data raw !! "Precipitation(in)" with
  | Some precip =>
      ∃ precip_bin,
        cut precip precip_bins precip_labels = Ok precip_bin ∧
        data df !! "Precipitation_Bin" = Some precip_bin
  | None => data df !! "Precipitation_Bin" = data raw !! "Precipitation_Bin"
  end.
Proof.
  intros (df1 & hour & hg & H1 & Hhour & Hcut & Hp)%prepare_Ok.
  assert (index df1 = index raw ∧
          (∀ c, c ≠ "Hour" → data df1 !! c = data raw !! c) ∧
          (is_Some (data raw !! "Hour") → df1 = raw)) as (Hidx & Hother & Hsame).
  { destruct H1 as [[-> _]|(Hnone & start & h & _ & _ & ->)]; [done|].
    split_and!; [done| |].
    - intros c Hc. simpl. by rewrite lookup_insert_ne.
    - rewrite Hnone. by intros [? [=]]. }
  assert (data df1 !! "Precipitation(in)" = data raw !! "Precipitation(in)")
    as Hprecip by by apply Hother.
  assert (data df1 !! "Precipitation_Bin" = data raw !! "Precipitation_Bin")
    as Hbin by by apply Hother.
  destruct Hp as [[Hnone ->]|(precip & pb & Hsome & Hcut' & ->)]; simpl.
  - split_and!; [done| | | |].
    + intros c (? & ? & ? & _)%not_elem_of_cons3. rewrite lookup_insert_ne, Hother; [done|congruence..].
    + intros Hh. rewrite lookup_insert_ne by done. by rewrite (Hsame Hh).
    + exists hour, hg. rewrite lookup_insert_ne by done.
      by rewrite lookup_insert_eq.
    + rewrite <-Hprecip, Hnone. by rewrite lookup_insert_ne.
  - split_and!; [done| | | |].
    + intros c (? & ? & ? & _)%not_elem_of_cons3. rewrite !lookup_insert_ne, Hother; [done|congruence..].
    + intros Hh. rewrite !lookup_insert_ne by done. by rewrite (Hsame Hh).
    + exists hour, hg. rewrite !lookup_insert_ne by done.
      by rewrite lookup_insert_eq.
    + rewrite <-Hprecip, Hsome. exists pb. by rewrite lookup_insert_eq.
Qed.

End preparation.

Section degraded_outputs.
Variable argsort : list nat → list nat.
Variable share : nat → nat → Qc.
Variable to_datetime_hour : Series → result Series.
Variable str_of_number : Qc → string.


(** C3: when the raw table has neither a precipitation column nor a
    bucket column, preparation succeeds without creating the bucket column,
    and the callback then raises for every selection. *)
Theorem dashboard_fails_without_precipitation raw df ss sh sp :
  data raw !! "Precipitation(in)" = None →
  data raw !! "Precipitation_Bin" = None →
  prepare to_datetime_hour raw = Ok df →
  data df !! "Precipitation_Bin" = None ∧
  ∃ e, update_dashboard argsort share str_of_number df ss sh sp = Raise e.
Proof.
  intros Hprecip Hbin Hdf%prepare_without_precipitation; [|done].
  rewrite Hbin in Hdf. split; [done|].
  destruct (update_dashboard _ _ _ _ _ _ _) as [r|e] eqn:Hr; [|by exists e].
  apply update_dashboard_Ok in Hr as (fdf & Hf%filter_rows_same_columns & Hr).
  apply aggregate_Ok in Hr
    as (? & ? & ? & ? & ? & ? & ? & _ & _ & _ & _ & _ & Hg & _).
  unfold groupby_size, getitem in Hg.
  by rewrite (same_columns_lookup_None _ _ _ Hf Hdf) in Hg.
Qed.

(** The mean shown in the fourth card: [0] without a precipitation column,
    the mean of the values present otherwise, [NaN] when none is present. *)
Lemma avg_precip_mean fdf r :
  aggregate argsort share fdf = Ok r →
  match data fdf !! "Precipitation(in)" with
  | None => avg_precip r = Num (Qc_of_Z 0)
  | Some s =>
      avg_precip r =
        match numbers (values s) with
        | [] => NaN
        | qs => Num (Qc_sum qs / Qc_of_nat (length qs))%Qc
        end
  end.
Proof.
  intros (? & ? & avg & ? & ? & ? & ? & _ & _ & Havg & _ & _ & _ & _ & ->)%aggregate_Ok.
  simpl. unfold avg_precip_of, has_column, getitem in Havg.
  destruct (data fdf !! "Precipitation(in)") as [s|].
  - rewrite bool_decide_eq_true_2 in Havg by eauto. simpl in Havg.
    unfold mean in Havg. destruct (dtype_of s); [done| |done].
    injection Havg as <-. by destruct (numbers (values s)).
  - rewrite bool_decide_eq_false_2 in Havg by by intros [? [=]].
    by injection Havg as <-.
Qed.

(** With a precipitation column, an empty filtered set gives the mean
    [NaN]. *)
Lemma no_rows_mean df ss sh sp r :
  wf df →
  is_Some (data df !! "Precipitation(in)") →
  update_dashboard argsort share str_of_number df ss sh sp = Ok r →
  total_accidents r = 0 →
  avg_precip r = NaN.
Proof.
  intros Hwf [s Hs] (fdf & Hf & Hr)%update_dashboard_Ok Htotal.
  pose proof (avg_precip_mean _ _ Hr) as Havg.
  pose proof (filter_rows_wf _ _ _ _ _ _ Hwf Hf) as Hwf'.
  destruct (same_columns_lookup _ _ _ _ (filter_rows_same_columns _ _ _ _ _ _ Hf) Hs)
    as (s' & Hs' & _).
  rewrite Hs' in Havg. rewrite Havg.
  apply aggregate_Ok in Hr as (? & ? & ? & ? & ? & ? & ? & _ & _ & _ & _ & _ & _ & _ & ->).
  simpl in Htotal. pose proof (wf_lookup _ _ _ Hwf' Hs') as Hlen.
  rewrite Htotal in Hlen. by destruct (values s').
Qed.
End degraded_outputs.

(** ** The callback returns *)

Lemma elem_of_select {A} (x : A) m xs : x ∈ select m xs → x ∈ xs.
Proof.
  revert xs. induction m as [|b m IH]; intros xs; simpl.
  { by intros ?%elem_of_nil. }
  destruct xs as [|y xs]; [by intros ?%elem_of_nil|].
  destruct b; rewrite ?elem_of_cons; intros H.
  - destruct H as [->|H]; [by left|]. right. by apply IH.
  - right. by apply IH.
Qed.

Lemma dropna_id xs : NaN ∉ xs → dropna xs = xs.
Proof.
  unfold dropna. induction xs as [|x xs IH]; [done|].
  rewrite not_elem_of_cons. intros [Hx Hxs].
  rewrite filter_cons, decide_True by done. by rewrite IH.
Qed.

Lemma mode_nonempty s : dropna (values s) ≠ [] → mode s ≠ [].
Proof.
  intros Hxs. unfold mode.
  set (xs := dropna (values s)) in *. set (keys := unique xs).
  set (top := max_list ((λ k, count k xs) <$> keys)).
  assert (filter (λ k, count k xs = top) keys ≠ []) as Hmodes.
  { assert (keys ≠ []) as Hkeys.
    { destruct xs as [|x xs'] eqn:Hx; [done|].
      assert (x ∈ keys) as Hin by (apply elem_of_unique; by left).
      intros Hnil. rewrite Hnil in Hin. by apply elem_of_nil in Hin. }
    assert (top ∈ (λ k, count k xs) <$> keys) as Htop.
    { apply max_list_elem_of. by destruct keys. }
    apply list_elem_of_fmap in Htop as (k & Hk & Hin).
    assert (k ∈ filter (λ k, count k xs = top) keys) as Hf
      by by apply list_elem_of_filter.
    intros Hnil. rewrite Hnil in Hf. by apply elem_of_nil in Hf. }
  assert (∀ (le : cell → cell → bool) l, l ≠ [] → sort_by le l ≠ []) as Hsort.
  { intros le l Hl Hnil. apply (f_equal length) in Hnil.
    rewrite length_sort_by in Hnil. by destruct l. }
  destruct (dtype_of s); [| |by apply Hsort];
    (destruct (_ || _); [by apply Hsort|done]).
Qed.

Ltac in_list :=
  unfold required_columns;
  repeat first [apply list_elem_of_here | apply list_elem_of_further].

Lemma keep_rows_Ok df sel col (mask : Series → list bool) :
  is_Some (data df !! col) →
  ∃ fdf, (if truthy sel then
            let* s := getitem df col in
            Ok (loc df (mask s))
          else Ok df) = Ok fdf.
Proof.
  intros [s Hs]. destruct (truthy sel); [|by eexists].
  unfold getitem. rewrite Hs. simpl. by eexists.
Qed.

Section totality.
Variable argsort : list nat → list nat.
Variable share : nat → nat → Qc.
Variable str_of_number : Qc → string.

Lemma filter_rows_Ok df ss sh sp :
  (∀ c, c ∈ required_columns → is_Some (data df !! c)) →
  ∃ fdf, filter_rows str_of_number df ss sh sp = Ok fdf.
Proof.
  intros Hcols. unfold filter_rows.
  assert (∀ d c, same_columns df d → c ∈ required_columns → is_Some (data d !! c))
    as Hkeep.
  { intros d c Hd Hc. destruct (Hcols c Hc) as [s Hs].
    destruct (same_columns_lookup _ _ _ _ Hd Hs) as (s' & -> & _). eauto. }
  destruct (keep_rows_Ok df ss "State" (λ s, isin s (chosen ss))) as [d1 H1].
  { apply Hcols. in_list. }
  rewrite H1. simpl. pose proof (same_columns_step _ _ _ _ _ H1) as S1.
  destruct (keep_rows_Ok d1 sh "Hour_Group" (λ s, isin s (chosen sh))) as [d2 H2].
  { apply Hkeep; [done|]. in_list. }
  rewrite H2. simpl. pose proof (same_columns_step _ _ _ _ _ H2) as S2.
  apply keep_rows_Ok, Hkeep.
  - intros c. by rewrite S2, S1.
  - in_list.
Qed.

(** On a table that is ready the callback returns its outputs for every
    selection. *)
Lemma update_dashboard_returns df ss sh sp :
  sorts argsort →
  ready df → ∃ r, update_dashboard argsort share str_of_number df ss sh sp = Ok r.
Proof.
  intros argsort_sorts (Hwf & Hcols & Hsev & Hhg & Hnum).
  destruct (filter_rows_Ok df ss sh sp Hcols) as [fdf Hf].
  unfold update_dashboard. rewrite Hf. simpl.
  pose proof (filter_rows_wf _ _ _ _ _ _ Hwf Hf) as Hwf'.
  pose proof (filter_rows_same_columns _ _ _ _ _ _ Hf) as Hsame.
  destruct (filter_rows_holds _ _ _ _ _ _ Hwf Hf) as (m & Hloc & _).
  assert (∀ c, c ∈ required_columns → ∃ s s',
            data df !! c = Some s ∧ data fdf !! c = Some s' ∧
            s' = select_series m s) as Hcol.
  { intros c Hc. destruct (Hcols c Hc) as [s Hs]. exists s, (select_series m s).
    split; [done|]. split; [|done]. by rewrite Hloc, loc_lookup, Hs. }
  destruct (Hcol "Severity") as (sev & sev' & Hsev1 & Hsev2 & Hsev3);
    [in_list|].
  destruct (Hcol "Hour_Group") as (hg & hg' & Hhg1 & Hhg2 & Hhg3);
    [in_list|].
  destruct (Hcol "Precipitation_Bin") as (pb & pb' & _ & Hpb2 & _);
    [in_list|].
  destruct (Hcol "State") as (st & st' & _ & Hst2 & _);
    [in_list|].
  unfold aggregate.
  (* line 110 *)
  assert (∃ c, most_common_severity_of fdf = Ok c) as [c1 ->].
  { unfold most_common_severity_of, getitem. rewrite Hsev2. simpl.
    destruct (0 <? len fdf) eqn:Hlen; [|by eexists].
    apply Nat.ltb_lt in Hlen.
    destruct (mode sev') as [|c cs] eqn:Hmode; [|by eexists].
    exfalso. revert Hmode. apply mode_nonempty.
    rewrite dropna_id.
    - pose proof (wf_lookup _ _ _ Hwf' Hsev2). destruct (values sev'); simpl in *; [lia|done].
    - rewrite Hsev3. simpl. intros Hin%elem_of_select. by apply (Hsev sev). }
  simpl.
  (* line 111 *)
  assert (∃ c, busiest_hour_group_of argsort fdf = Ok c) as [c2 ->].
  { unfold busiest_hour_group_of, getitem. rewrite Hhg2. simpl.
    destruct (0 <? len fdf); [|by eexists].
    apply idxmax_nonempty.
    destruct (Hhg hg Hhg1) as (cats & Hd & Hne).
    assert (dtype_of hg' = Category cats) as Hd' by by rewrite Hhg3.
    intros Hnil. pose proof (value_counts_category _ _ _ argsort_sorts Hd') as Hperm.
    rewrite Hnil in Hperm. apply Permutation_nil_l in Hperm.
    by destruct cats. }
  simpl.
  (* line 112 *)
  assert (∃ c, avg_precip_of fdf = Ok c) as [c3 ->].
  { unfold avg_precip_of, has_column, getitem.
    destruct (data fdf !! "Precipitation(in)") as [p'|] eqn:Hp'.
    - rewrite bool_decide_eq_true_2 by eauto. simpl.
      assert (dtype_of p' = Numeric) as Hd.
      { rewrite Hloc, loc_lookup in Hp'.
        destruct (data df !! "Precipitation(in)") as [p|] eqn:Hp; [|done].
        injection Hp' as <-. simpl. by apply Hnum. }
      unfold mean. rewrite Hd. by eexists.
    - rewrite bool_decide_eq_false_2 by by intros [? [=]]. by eexists. }
  simpl. unfold groupby_size, getitem. rewrite Hsev2, Hhg2, Hpb2, Hst2. simpl.
  unfold scatter_mapbox.
  assert (forallb (has_column fdf) ["Start_Lat"; "Start_Lng"; "City"; "Severity"] = true)
    as ->; [|by eexists].
  apply forallb_forall. intros c Hc%list_elem_of_In. apply has_column_true.
  destruct (Hcol c) as (? & ? & _ & -> & _); [|by eauto].
  repeat (apply elem_of_cons in Hc as [->|Hc]; [in_list|]).
  by apply elem_of_nil in Hc.
Qed.
End totality.

(** ** Prepared tables are ready *)

Lemma wf_setitem df c s : wf df → series_ok (len df) s → wf (setitem df c s).
Proof. intros Hwf Hs. unfold wf, setitem. simpl. by apply map_Forall_insert_2. Qed.

Lemma cut_Ok s bins labels s' :
  cut s bins labels = Ok s' →
  dtype_of s = Numeric ∧
  s' = mkSeries (Category labels) (cut_cell bins labels <$> values s).
Proof. unfold cut. destruct (dtype_of s); by intros [= <-]. Qed.

Lemma cut_series_ok n s bins labels s' :
  NoDup labels → length (values s) = n →
  cut s bins labels = Ok s' → series_ok n s'.
Proof.
  intros Hl Hn (_ & ->)%cut_Ok. split; simpl; [|done]. by rewrite length_fmap.
Qed.

Section prepared_tables.
Variable argsort : list nat → list nat.
Variable share : nat → nat → Qc.
Variable to_datetime_hour : Series → result Series.
Variable str_of_number : Qc → string.
Hypothesis to_datetime_hour_length :
  ∀ s h, to_datetime_hour s = Ok h → length (values h) = length (values s).

Lemma prepare_wf raw df :
  wf raw → prepare to_datetime_hour raw = Ok df → wf df.
Proof.
  intros Hwf (df1 & hour & hg & H1 & Hhour & Hcut & Hp)%prepare_Ok.
  assert (wf df1 ∧ len df1 = len raw) as [Hwf1 Hlen1].
  { destruct H1 as [[-> _]|(_ & start & h & Hstart & Hh & ->)]; [done|].
    split; [|done]. apply wf_setitem; [done|].
    simpl in Hhour. rewrite lookup_insert_eq in Hhour. injection Hhour as ->.
    apply cut_Ok in Hcut as [Hd _]. split; [|by rewrite Hd].
    rewrite (to_datetime_hour_length _ _ Hh). by apply (wf_lookup raw "Start_Time"). }
  assert (wf (setitem df1 "Hour_Group" hg)) as Hwf2.
  { apply wf_setitem; [done|]. eapply cut_series_ok; [|by eapply wf_lookup|done].
    apply (bool_decide_unpack _). by vm_compute. }
  destruct Hp as [[_ ->]|(precip & pb & Hprecip & Hcut' & ->)]; [done|].
  apply wf_setitem; [done|].
  eapply cut_series_ok; [|exact (wf_lookup df1 _ _ Hwf1 Hprecip)|done].
  apply (bool_decide_unpack _). by vm_compute.
Qed.

Lemma prepare_other_columns raw df c :
  prepare to_datetime_hour raw = Ok df →
  c ≠ "Hour" → c ≠ "Hour_Group" → c ≠ "Precipitation_Bin" →
  data df !! c = data raw !! c.
Proof.
  intros (df1 & hour & hg & H1 & _ & _ & Hp)%prepare_Ok Hc1 Hc2 Hc3.
  assert (data df1 !! c = data raw !! c) as <-.
  { destruct H1 as [[-> _]|(_ & start & h & _ & _ & ->)]; [done|].
    simpl. by rewrite lookup_insert_ne. }
  destruct Hp as [[_ ->]|(precip & pb & _ & _ & ->)]; simpl;
    by rewrite !lookup_insert_ne.
Qed.

(** A raw table with the six columns the dashboard shows, and a severity in
    every record, is ready once prepared. *)
Lemma prepare_ready raw df :
  wf raw →
  (∀ c, c ∈ ["State"; "Severity"; "Start_Lat"; "Start_Lng"; "City";
             "Precipitation(in)"] → is_Some (data raw !! c)) →
  (∀ s, data raw !! "Severity" = Some s → NaN ∉ values s) →
  prepare to_datetime_hour raw = Ok df →
  ready df.
Proof.
  intros Hwf Hcols Hsev Hp.
  pose proof (prepare_other_columns raw df) as Hother.
  destruct (prepare_hour_group _ _ _ Hp) as (hg & Hhg & Hd).
  assert (∃ precip pb, data df !! "Precipitation(in)" = Some precip ∧
            dtype_of precip = Numeric ∧ data df !! "Precipitation_Bin" = Some pb)
    as (precip & pb & Hprecip & Hnum & Hpb).
  { destruct (Hcols "Precipitation(in)") as [p Hraw]; [in_list|].
    rewrite <-(Hother "Precipitation(in)") in Hraw by done.
    apply prepare_Ok in Hp as (df1 & ? & ? & _ & _ & _ & Hp).
    destruct Hp as [[Hnone ->]|(precip & pb & Hsome & [Hnum _]%cut_Ok & ->)].
    - simpl in Hraw. rewrite lookup_insert_ne in Hraw by done. congruence.
    - exists precip, pb. simpl. rewrite !lookup_insert_ne by done.
      by rewrite lookup_insert_eq. }
  split_and!.
  - by apply (prepare_wf raw).
  - intros c Hc. unfold required_columns in Hc.
    repeat (apply elem_of_cons in Hc as [->|Hc]); try by eauto;
      try (rewrite Hother by done; apply Hcols; in_list).
    by apply elem_of_nil in Hc.
  - intros s. rewrite Hother by done. apply Hsev.
  - intros s. rewrite Hhg. intros [= <-]. by exists hour_labels.
  - intros s. rewrite Hprecip. by intros [= <-].
Qed.

(** For such a table the callback returns for every selection. *)
Lemma prepared_dashboard_returns raw df ss sh sp :
  sorts argsort →
  wf raw →
  (∀ c, c ∈ ["State"; "Severity"; "Start_Lat"; "Start_Lng"; "City";
             "Precipitation(in)"] → is_Some (data raw !! c)) →
  (∀ s, data raw !! "Severity" = Some s → NaN ∉ values s) →
  prepare to_datetime_hour raw = Ok df →
  ∃ r, update_dashboard argsort share str_of_number df ss sh sp = Ok r.
Proof.
  intros Hsorts Hwf Hcols Hsev Hp.
  by apply update_dashboard_returns, (prepare_ready raw).
Qed.
End prepared_tables.

(** ** The scenario tables *)

Lemma scenario_df_prepared : prepare no_datetime scenario_raw = Ok scenario_df.
Proof. vm_compute. reflexivity. Qed.

Lemma scenario_dry_df_prepared : prepare no_datetime scenario_raw_dry = Ok scenario_dry_df.
Proof. vm_compute. reflexivity. Qed.

Lemma scenario_timestamps_df_prepared :
  prepare iso_hour scenario_raw_timestamps = Ok scenario_timestamps_df.
Proof. vm_compute. reflexivity. Qed.

Lemma odd_hour_df_prepared : prepare no_datetime odd_hour_raw = Ok odd_hour_df.
Proof. vm_compute. reflexivity. Qed.

(** The unfiltered scenario: three records, severity 2, Afternoon. *)
Example scenario_unfiltered :
  ∃ r, update_dashboard stable_argsort exact_share no_str scenario_df None None None = Ok r ∧
       total_accidents r = 3 ∧
       most_common_severity r = Num (Qc_of_Z 2) ∧
       busiest_hour_group r = Str "Afternoon" ∧
       accidents_by_state r = [(Str "CA", 2); (Str "NY", 1)].
Proof. eexists. split; [vm_compute; reflexivity|]. vm_compute. by repeat split. Qed.

(** On the three-row table the callback returns whatever is selected. *)
Example scenario_returns ss sh sp :
  ∃ r, update_dashboard stable_argsort exact_share no_str scenario_df ss sh sp = Ok r.
Proof.
  apply (prepared_dashboard_returns _ _ no_datetime no_str) with scenario_raw.
  - intros s h. discriminate.
  - apply stable_argsort_sorts.
  - apply (bool_decide_unpack _). by vm_compute.
  - intros c Hc.
    repeat (apply elem_of_cons in Hc as [->|Hc]; [by vm_compute; eauto|]).
    by apply elem_of_nil in Hc.
  - intros s Hs. vm_compute in Hs. injection Hs as <-.
    apply (bool_decide_unpack _). by vm_compute.
  - apply scenario_df_prepared.
Qed.

(** C2, on the three-row table with the hour-group choice [Morning], which no
    row matches: the callback returns total 0, the marker ["N/A"] for severity
    and hour group, empty tables and an empty map subset, but the mean
    precipitation it returns is [NaN], not 0. *)
Theorem empty_filter_mean_is_nan :
  ∃ r, update_dashboard stable_argsort exact_share no_str scenario_df None (Some ["Morning"]) None = Ok r ∧
       total_accidents r = 0 ∧
       most_common_severity r = Str "N/A" ∧
       busiest_hour_group r = Str "N/A" ∧
       severity_counts r = [] ∧
       accidents_by_hour r = [] ∧
       accidents_by_precip r = [] ∧
       accidents_by_state r = [] ∧
       len (fig_map r) = 0 ∧
       avg_precip r = NaN.
Proof. eexists. split; [vm_compute; reflexivity|]. vm_compute. by repeat split. Qed.

(** C4, on the three-row table with the state choice [NY], whose only row has
    no precipitation value: one row is kept, the table of precipitation
    buckets is empty, and the mean precipitation returned is [NaN], not 0. *)
Theorem missing_precipitation_mean_is_nan :
  ∃ r, update_dashboard stable_argsort exact_share no_str scenario_df (Some ["NY"]) None None = Ok r ∧
       total_accidents r = 1 ∧
       accidents_by_precip r = [] ∧
       avg_precip r = NaN.
Proof. eexists. split; [vm_compute; reflexivity|]. vm_compute. by repeat split. Qed.

(** Without a precipitation column the first failure is the grouping by
    bucket. *)
Example scenario_dry_raises :
  update_dashboard stable_argsort exact_share no_str scenario_dry_df None None None
  = Raise (KeyError "Precipitation_Bin").
Proof. vm_compute. reflexivity. Qed.

(** C5 fails as stated: a table read without an [Hour] column comes out of
    preparation with an [Hour] column next to the two derived ones, and a table
    read without a precipitation column comes out without
    [Precipitation_Bin]. *)
Lemma prepare_is_not_exact_augmentation :
  (prepare iso_hour scenario_raw_timestamps = Ok scenario_timestamps_df ∧
   ¬ augmented_exactly scenario_raw_timestamps scenario_timestamps_df) ∧
  (prepare no_datetime scenario_raw_dry = Ok scenario_dry_df ∧
   ¬ augmented_exactly scenario_raw_dry scenario_dry_df).
Proof.
  split; (split; [vm_compute; reflexivity|]); intros (_ & Hdom & _).
  - assert ("Hour" ∈ dom (data scenario_timestamps_df)) as Hin.
    { apply elem_of_dom. vm_compute. eauto. }
    rewrite Hdom, elem_of_union, elem_of_dom in Hin.
    destruct Hin as [[s Hs]|Hin]; [by vm_compute in Hs|].
    by apply elem_of_union in Hin as [?%elem_of_singleton|?%elem_of_singleton].
  - assert ("Precipitation_Bin" ∈ dom (data scenario_dry_df)) as Hin.
    { rewrite Hdom. apply elem_of_union_r, elem_of_union_r. by apply elem_of_singleton. }
    apply elem_of_dom in Hin as [s Hs]. by vm_compute in Hs.
Qed.


(** C6 fails as stated: nothing in the program asks for a stable sort, and
    with an argsort that sorts but lists equal keys last-first the six
    records, grouped as CA 1, NY 1, TX 2, WA 2, come out as WA, TX, NY, CA:
    the counts never increase, but the states with two records (and those
    with one) do not stand in the order of the grouped table. *)
Lemma equal_counts_not_in_grouped_order :
  sorts last_first_argsort ∧
  wf ties_df ∧
  ∃ r by_state,
    update_dashboard last_first_argsort exact_share no_str ties_df None None None = Ok r ∧
    filter_rows no_str ties_df None None None = Ok ties_df ∧
    groupby_size ties_df "State" = Ok by_state ∧
    by_state = [(Str "CA", 1); (Str "NY", 1); (Str "TX", 2); (Str "WA", 2)] ∧
    accidents_by_state r = [(Str "WA", 2); (Str "TX", 2); (Str "NY", 1); (Str "CA", 1)] ∧
    ¬ (∀ n, filter (same_count n) (accidents_by_state r)
              `prefix_of` filter (same_count n) by_state).
Proof.
  split; [exact last_first_argsort_sorts|].
  split; [apply (bool_decide_unpack _); vm_compute; exact I|].
  eexists _, _. split; [vm_compute; reflexivity|]. cbn [accidents_by_state].
  split; [vm_compute; reflexivity|].
  split; [vm_compute; reflexivity|].
  split; [reflexivity|]. split; [vm_compute; reflexivity|].
  intros Hprefix. specialize (Hprefix 2).
  apply (bool_decide_pack _) in Hprefix. vm_compute in Hprefix. exact Hprefix.
Qed.

(** ** The theorems at work on the scenario tables *)

Lemma total_counts_matching_rows_witness :
  wf scenario_df ∧
  ∃ r, update_dashboard stable_argsort exact_share no_str scenario_df (Some ["CA"]) (Some ["Afternoon"]) None = Ok r ∧
       total_accidents r
       = length (filter (λ i,
                   constraint (Some ["CA"]) (cell_at scenario_df "State" i ≫= text_of) &&
                   constraint (Some ["Afternoon"])
                     (cell_at scenario_df "Hour_Group" i ≫= text_of) &&
                   constraint None
                     (label_text no_str <$> cell_at scenario_df "Precipitation_Bin" i)
                   = true)
                  (seq 0 (len scenario_df))).
Proof.
  assert (wf scenario_df) as Hwf by (apply (bool_decide_unpack _); vm_compute; exact I).
  split; [exact Hwf|]. eexists. split; [vm_compute; reflexivity|].
  apply (total_counts_matching_rows stable_argsort exact_share no_str scenario_df
           (Some ["CA"]) (Some ["Afternoon"]) None); [exact Hwf|].
  vm_compute. reflexivity.
Defined.

Lemma grouped_counts_positive_witness :
  ∃ r, update_dashboard stable_argsort exact_share no_str scenario_df (Some ["CA"]) None None = Ok r ∧
       Forall (λ e, 1 ≤ e.2) (accidents_by_hour r) ∧
       Forall (λ e, 1 ≤ e.2) (fig_hour r) ∧
       Forall (λ e, 1 ≤ e.2) (accidents_by_precip r).
Proof.
  eexists. split; [vm_compute; reflexivity|].
  apply (grouped_counts_positive stable_argsort exact_share no_str scenario_df (Some ["CA"]) None None).
  vm_compute. reflexivity.
Defined.

Lemma filtering_is_monotone_witness :
  wf scenario_df ∧
  tightens (Some ["CA"; "NY"]) (Some ["NY"]) ∧
  tightens None (Some ["Afternoon"]) ∧
  tightens None None ∧
  ∃ r r',
    update_dashboard stable_argsort exact_share no_str scenario_df (Some ["CA"; "NY"]) None None = Ok r ∧
    update_dashboard stable_argsort exact_share no_str scenario_df (Some ["NY"]) (Some ["Afternoon"]) None = Ok r' ∧
    total_accidents r' ≤ total_accidents r.
Proof.
  assert (wf scenario_df) as Hwf by (apply (bool_decide_unpack _); vm_compute; exact I).
  assert (tightens (Some ["CA"; "NY"]) (Some ["NY"])) as Hs
    by (apply (bool_decide_unpack _); vm_compute; exact I).
  assert (tightens None (Some ["Afternoon"])) as Hh by (left; reflexivity).
  assert (tightens None None) as Hp by (left; reflexivity).
  split_and!; [done..|]. do 2 eexists.
  split; [vm_compute; reflexivity|]. split; [vm_compute; reflexivity|].
  apply (filtering_is_monotone stable_argsort exact_share no_str scenario_df
           (Some ["CA"; "NY"]) None None (Some ["NY"]) (Some ["Afternoon"]) None);
    [exact Hwf|exact Hs|exact Hh|exact Hp|vm_compute; reflexivity..].
Defined.

Lemma top_states_ordered_witness :
  sorts last_first_argsort ∧
  wf ties_df ∧
  ∃ r, update_dashboard last_first_argsort exact_share no_str ties_df None None None = Ok r ∧
  ∃ fdf by_state,
    filter_rows no_str ties_df None None None = Ok fdf ∧
    groupby_size fdf "State" = Ok by_state ∧
    length (accidents_by_state r) ≤ 10 ∧
    length (accidents_by_state r) ≤ distinct_states fdf ∧
    StronglySorted (λ a b, b.2 ≤ a.2) (accidents_by_state r).
Proof.
  assert (wf ties_df) as Hwf by (apply (bool_decide_unpack _); vm_compute; exact I).
  split; [exact last_first_argsort_sorts|].
  split; [exact Hwf|]. eexists. split; [vm_compute; reflexivity|].
  apply (top_states_ordered last_first_argsort exact_share no_str ties_df None None None);
    [exact last_first_argsort_sorts|exact Hwf|vm_compute; reflexivity].
Defined.

Lemma prepare_adds_derived_columns_witness :
  prepare iso_hour scenario_raw_timestamps = Ok scenario_timestamps_df ∧
  index scenario_timestamps_df = index scenario_raw_timestamps ∧
  (∀ c, c ∉ ["Hour"; "Hour_Group"; "Precipitation_Bin"] →
        data scenario_timestamps_df !! c = data scenario_raw_timestamps !! c).
Proof.
  assert (prepare iso_hour scenario_raw_timestamps = Ok scenario_timestamps_df)
    as Hp by (vm_compute; reflexivity).
  split; [exact Hp|].
  destruct (prepare_adds_derived_columns iso_hour _ _ Hp) as (Hidx & Hcols & _).
  split; [exact Hidx|exact Hcols].
Defined.


Lemma dashboard_fails_without_precipitation_witness :
  data scenario_raw_dry !! "Precipitation(in)" = None ∧
  data scenario_raw_dry !! "Precipitation_Bin" = None ∧
  prepare no_datetime scenario_raw_dry = Ok scenario_dry_df ∧
  data scenario_dry_df !! "Precipitation_Bin" = None ∧
  ∃ e, update_dashboard stable_argsort exact_share no_str scenario_dry_df (Some ["CA"]) None (Some ["Light"]) = Raise e.
Proof.
  assert (data scenario_raw_dry !! "Precipitation(in)" = None)
    as H1 by (vm_compute; reflexivity).
  assert (data scenario_raw_dry !! "Precipitation_Bin" = None)
    as H2 by (vm_compute; reflexivity).
  assert (prepare no_datetime scenario_raw_dry = Ok scenario_dry_df)
    as Hp by (vm_compute; reflexivity).
  split_and!; [done..| |];
    apply (dashboard_fails_without_precipitation stable_argsort exact_share
             no_datetime no_str
             scenario_raw_dry scenario_dry_df (Some ["CA"]) None (Some ["Light"])
             H1 H2 Hp).
Defined.


(** * Further properties of the program *)

(** ** The buckets *)

Lemma bool_decide_Z2Qc_lt a b :
  bool_decide (Qc_of_Z a < Qc_of_Z b)%Qc = bool_decide (a < b)%Z.
Proof. apply bool_decide_ext. symmetry. apply Z2Qc_inj_lt. Qed.

Lemma bool_decide_Z2Qc_le a b :
  bool_decide (Qc_of_Z a ≤ Qc_of_Z b)%Qc = bool_decide (a ≤ b)%Z.
Proof. apply bool_decide_ext. symmetry. apply Z2Qc_inj_le. Qed.

(** X1: the hour group of a whole hour [h], as lines 14-16 compute it, is
    Night for 0-5, Morning for 6-11, Afternoon for 12-17, Evening for 18-23,
    and missing for every other hour. *)
Theorem hour_group_by_hour (h : Z) :
  cut_cell hour_bins hour_labels (Num (Qc_of_Z h)) = hour_group_of h.
Proof.
  unfold cut_cell, hour_bins, hour_labels, hour_group_of, cut_label.
  rewrite !bool_decide_Z2Qc_lt, !bool_decide_Z2Qc_le.
  repeat case_bool_decide; repeat case_decide; simpl; try reflexivity; lia.
Qed.

Lemma cut_label_below bins labels x :
  Forall (λ b, x ≤ b)%Qc bins → cut_label bins labels x = NaN.
Proof.
  revert labels. induction bins as [|lo bins IH]; intros labels Hx; [done|].
  apply Forall_cons in Hx as [Hlo Hx].
  destruct bins as [|hi rest]; [done|]. destruct labels as [|l labels]; [done|].
  cbn [cut_label]. rewrite (bool_decide_eq_false_2 (lo < x)%Qc).
  - by apply IH.
  - by apply Qcle_not_lt.
Qed.

Lemma cut_label_in lo hi rest l labels x :
  (lo < x)%Qc → (x ≤ hi)%Qc → cut_label (lo :: hi :: rest) (l :: labels) x = Str l.
Proof.
  intros H1 H2. cbn [cut_label].
  by rewrite (bool_decide_eq_true_2 _ H1), (bool_decide_eq_true_2 _ H2).
Qed.

Lemma cut_label_above lo hi rest l labels x :
  ¬ (x ≤ hi)%Qc →
  cut_label (lo :: hi :: rest) (l :: labels) x = cut_label (hi :: rest) labels x.
Proof.
  intros H. cbn [cut_label]. rewrite (bool_decide_eq_false_2 (x ≤ hi)%Qc) by done.
  by rewrite andb_false_r.
Qed.

(** X2: the precipitation bucket of an amount [x], as lines 20-22 compute it:
    None on (-0.01, 0.01], Trace up to 0.1, Light up to 0.5, Moderate up to 1,
    Heavy up to 5, Extreme up to 50, and missing at or below -0.01 and above
    50. *)
Theorem precip_bin_by_amount (x : Qc) :
  cut_cell precip_bins precip_labels (Num x) = precip_bin_of x.
Proof.
  unfold cut_cell, precip_bins, precip_labels, precip_bin_of.
  case_decide as H0.
  { apply cut_label_below. repeat constructor;
      (eapply Qcle_trans; [exact H0|by apply (bool_decide_unpack _); vm_compute]). }
  apply Qcnot_le_lt in H0.
  repeat (case_decide as H;
          [by apply cut_label_in
          |rewrite (cut_label_above _ _ _ _ _ _ H); clear H0;
           apply Qcnot_le_lt in H; rename H into H0]).
  done.
Qed.

(** ** What the filters keep *)

Lemma origin_Some {A} m (xs : list A) j x :
  select m xs !! j = Some x →
  ∃ i, origin m j = Some i ∧ m !! i = Some true ∧ xs !! i = Some x.
Proof.
  revert xs j. induction m as [|b m IH]; intros xs j; [done|].
  destruct xs as [|y xs]; [done|]. destruct b; simpl.
  - destruct j as [|j]; simpl.
    + intros [= ->]. by exists 0.
    + intros (i & -> & ? & ?)%IH. by exists (S i).
  - intros (i & -> & ? & ?)%IH. by exists (S i).
Qed.

Lemma origin_select {A} m (xs : list A) j i :
  origin m j = Some i → length m ≤ length xs → select m xs !! j = xs !! i.
Proof.
  revert xs j i. induction m as [|b m IH]; intros xs j i; [done|].
  destruct xs as [|y xs]; simpl; [lia|]. intros Ho Hlen.
  destruct b.
  - destruct j as [|j]; simpl in *.
    + by injection Ho as <-.
    + destruct (origin m j) as [i'|] eqn:Hi; [|done].
      injection Ho as <-. simpl. apply IH; [done|lia].
  - destruct (origin m j) as [i'|] eqn:Hi; [|done].
    injection Ho as <-. simpl. apply IH; [done|lia].
Qed.

Lemma select_sublist {A} m (xs : list A) : select m xs `sublist_of` xs.
Proof.
  revert xs. induction m as [|b m IH]; intros xs; simpl.
  { apply sublist_nil_l. }
  destruct xs as [|x xs]; [done|].
  destruct b; [by apply sublist_skip|by apply sublist_cons].
Qed.

Lemma fmap_all_true {A} (f : A → bool) xs :
  (∀ j y, xs !! j = Some y → f y = true) →
  f <$> xs = replicate (length xs) true.
Proof.
  induction xs as [|x xs IH]; intros Hf; [done|]. simpl. f_equal.
  - by apply (Hf 0).
  - apply IH. intros j y. apply (Hf (S j)).
Qed.

Lemma holds_rows_cell df fdf g j :
  wf df → holds_rows df fdf g → j < len fdf →
  ∃ i, g i = true ∧ i < len df ∧ ∀ c, cell_at fdf c j = cell_at df c i.
Proof.
  intros Hwf (m & -> & Hlen & Hm) Hj.
  destruct (lookup_lt_is_Some_2 (index (loc df m)) j Hj) as [n Hn].
  apply origin_Some in Hn as (i & Hi & Htrue & Hidx).
  assert (i < len df) as Hlt by by apply lookup_lt_Some in Hidx.
  exists i. split_and!; [|done|].
  - specialize (Hm i Hlt). congruence.
  - intros c'. unfold cell_at. rewrite loc_lookup.
    destruct (data df !! c') as [s|] eqn:Hs; [|done]. simpl.
    apply origin_select; [done|]. rewrite (wf_lookup _ _ _ Hwf Hs). lia.
Qed.

Section kept_rows.
Variable argsort : list nat → list nat.
Variable share : nat → nat → Qc.
Variable str_of_number : Qc → string.

Lemma filter_rows_satisfied df ss sh sp fdf j :
  wf df →
  filter_rows str_of_number df ss sh sp = Ok fdf →
  j < len fdf →
  row_satisfies str_of_number fdf ss sh sp j = true.
Proof.
  intros Hwf Hf Hj.
  destruct (holds_rows_cell df fdf _ j Hwf
              (filter_rows_holds _ _ _ _ _ _ Hwf Hf) Hj) as (i & Hi & _ & Hc).
  unfold row_satisfies in *. by rewrite !Hc.
Qed.

(** X3: every row the filters keep passes every active constraint: in the
    frame handed to the map, each row has its state among the chosen states,
    its hour group among the chosen hour groups and the label of its
    precipitation bucket among the chosen buckets, for each dropdown with a
    choice. *)
Theorem kept_rows_satisfy_selection df ss sh sp r j :
  wf df →
  update_dashboard argsort share str_of_number df ss sh sp = Ok r →
  j < total_accidents r →
  constraint ss (cell_at (fig_map r) "State" j ≫= text_of) = true ∧
  constraint sh (cell_at (fig_map r) "Hour_Group" j ≫= text_of) = true ∧
  constraint sp (label_text str_of_number <$>
                   cell_at (fig_map r) "Precipitation_Bin" j) = true.
Proof.
  intros Hwf (fdf & Hf & Hr)%update_dashboard_Ok Hj.
  apply aggregate_Ok in Hr
    as (? & ? & ? & ? & ? & ? & ? & _ & _ & _ & _ & _ & _ & _ & ->).
  cbn [fig_map total_accidents] in *.
  pose proof (filter_rows_satisfied _ _ _ _ _ _ Hwf Hf Hj) as Hsat.
  unfold row_satisfies in Hsat. rewrite !andb_true_iff in Hsat. tauto.
Qed.

Lemma keep_rows_again fdf sel col (lab : cell → option string)
    (mask : Series → list bool) :
  (∀ s, mask s = (λ c, member sel (lab c)) <$> values s) →
  wf fdf →
  (truthy sel = true → is_Some (data fdf !! col)) →
  (∀ j, j < len fdf → constraint sel (cell_at fdf col j ≫= lab) = true) →
  (if truthy sel then
     let* s := getitem fdf col in
     Ok (loc fdf (mask s))
   else Ok fdf) = Ok fdf.
Proof.
  intros Hmask Hwf Hcol Hsat. unfold constraint in Hsat.
  destruct (truthy sel); [|done].
  destruct Hcol as [s Hs]; [done|]. unfold getitem. rewrite Hs. simpl.
  pose proof (wf_lookup _ _ _ Hwf Hs) as Hlen.
  rewrite Hmask, fmap_all_true, Hlen, loc_all; [done..|].
  intros j y Hy. specialize (Hsat j). unfold cell_at in Hsat.
  rewrite Hs in Hsat. simpl in Hsat. rewrite Hy in Hsat. apply Hsat.
  apply lookup_lt_Some in Hy. lia.
Qed.

(** X4: filtering is idempotent: applying the same selection to the rows
    already filtered keeps all of them and changes nothing. *)
Theorem filter_rows_idempotent df ss sh sp fdf :
  wf df →
  filter_rows str_of_number df ss sh sp = Ok fdf →
  filter_rows str_of_number fdf ss sh sp = Ok fdf.
Proof.
  intros Hwf Hf.
  pose proof (filter_rows_wf _ _ _ _ _ _ Hwf Hf) as Hwf'.
  pose proof (filter_rows_same_columns _ _ _ _ _ _ Hf) as Hsame.
  assert (∀ j, j < len fdf → row_satisfies str_of_number fdf ss sh sp j = true)
    as Hsat by (intros j; by apply (filter_rows_satisfied df)).
  assert (∀ sel col, truthy sel = true →
            (truthy sel = true → is_Some (data df !! col)) →
            is_Some (data fdf !! col)) as Hhas.
  { intros sel col Ht Hdf. destruct (Hdf Ht) as [s Hs].
    destruct (same_columns_lookup _ _ _ _ Hsame Hs) as (s' & -> & _). eauto. }
  (* the columns the original run read *)
  unfold filter_rows in Hf.
  apply bind_Ok in Hf as (d1 & H1 & Hf). apply bind_Ok in Hf as (d2 & H2 & H3).
  pose proof (same_columns_step _ _ _ _ _ H1) as S1.
  pose proof (same_columns_step _ _ _ _ _ H2) as S2.
  assert (truthy ss = true → is_Some (data df !! "State")) as C1.
  { intros Ht. rewrite Ht in H1. apply bind_Ok in H1 as (s & Hs%getitem_Ok & _). eauto. }
  assert (truthy sh = true → is_Some (data df !! "Hour_Group")) as C2.
  { intros Ht. rewrite Ht in H2. apply bind_Ok in H2 as (s & Hs%getitem_Ok & _).
    specialize (S1 "Hour_Group"). rewrite Hs in S1.
    by destruct (data df !! "Hour_Group"); eauto. }
  assert (truthy sp = true → is_Some (data df !! "Precipitation_Bin")) as C3.
  { intros Ht. rewrite Ht in H3. apply bind_Ok in H3 as (s & Hs%getitem_Ok & _).
    specialize (S1 "Precipitation_Bin"). specialize (S2 "Precipitation_Bin").
    rewrite Hs, S1 in S2. by destruct (data df !! "Precipitation_Bin"); eauto. }
  unfold filter_rows.
  rewrite (keep_rows_again fdf ss "State" text_of (λ s, isin s (chosen ss))
             (λ s, isin_member s ss) Hwf'); simpl.
  - rewrite (keep_rows_again fdf sh "Hour_Group" text_of (λ s, isin s (chosen sh))
               (λ s, isin_member s sh) Hwf'); simpl.
    + apply (keep_rows_again fdf sp "Precipitation_Bin"
               (λ c, Some (label_text str_of_number c))
               (λ s, isin (astype_str str_of_number s) (chosen sp))
               (λ s, isin_astype_member str_of_number s sp) Hwf').
      * intros Ht. by apply (Hhas sp).
      * intros j Hj. specialize (Hsat j Hj). unfold row_satisfies in Hsat.
        rewrite !andb_true_iff in Hsat. destruct Hsat as [_ Hsat].
        by destruct (cell_at fdf "Precipitation_Bin" j).
    + intros Ht. by apply (Hhas sh).
    + intros j Hj. specialize (Hsat j Hj). unfold row_satisfies in Hsat.
      rewrite !andb_true_iff in Hsat. by destruct Hsat as [[? ?] ?].
  - intros Ht. by apply (Hhas ss).
  - intros j Hj. specialize (Hsat j Hj). unfold row_satisfies in Hsat.
    rewrite !andb_true_iff in Hsat. by destruct Hsat as [[? ?] ?].
Qed.

(** X5: the frame handed to the map keeps the shape of the table: the same
    columns with the same types, one cell per row in each, its rows a
    sub-sequence of the table's rows in their order, as many as the total. *)
Theorem map_subset_shape df ss sh sp r :
  wf df →
  update_dashboard argsort share str_of_number df ss sh sp = Ok r →
  wf (fig_map r) ∧
  same_columns df (fig_map r) ∧
  index (fig_map r) `sublist_of` index df ∧
  len (fig_map r) = total_accidents r.
Proof.
  intros Hwf (fdf & Hf & Hr)%update_dashboard_Ok.
  apply aggregate_Ok in Hr
    as (? & ? & ? & ? & ? & ? & ? & _ & _ & _ & _ & _ & _ & _ & ->).
  cbn [fig_map total_accidents]. split_and!; [| | |done].
  - by apply (filter_rows_wf str_of_number df ss sh sp).
  - by apply (filter_rows_same_columns str_of_number df ss sh sp).
  - destruct (filter_rows_holds _ _ _ _ _ _ Hwf Hf) as (m & -> & _).
    apply select_sublist.
Qed.
End kept_rows.

(** ** The cards and the charts *)

Lemma idxmax_greatest t c :
  idxmax t = Ok c → ∃ n, (c, n) ∈ t ∧ ∀ e, e ∈ t → e.2 ≤ n.
Proof.
  destruct t as [|e t]; simpl; [done|]. intros [= <-].
  set (step := λ best x : cell * nat, if best.2 <? x.2 then x else best).
  assert (∀ t e, foldl step e t ∈ e :: t ∧
                 ∀ x, x ∈ e :: t → x.2 ≤ (foldl step e t).2) as Hfold.
  { clear. intros t. induction t as [|y t IH]; intros e; simpl.
    - split; [by left|]. by intros x ->%list_elem_of_singleton.
    - destruct (IH (step e y)) as [Hin Hmax]. split.
      + apply elem_of_cons in Hin as [->|Hin]; [|by do 2 right].
        unfold step. destruct (e.2 <? y.2); [right|]; by left.
      + assert (e.2 ≤ (step e y).2 ∧ y.2 ≤ (step e y).2) as [He Hy].
        { unfold step. destruct (e.2 <? y.2) eqn:Hlt.
          - apply Nat.ltb_lt in Hlt. lia.
          - apply Nat.ltb_ge in Hlt. lia. }
        pose proof (Hmax (step e y) (list_elem_of_here _ _)) as Hs.
        intros x [->|[->|Hx]%elem_of_cons]%elem_of_cons; [lia..|].
        apply Hmax. by right. }
  destruct (Hfold t e) as [Hin Hmax].
  exists (foldl step e t).2. split; [|done]. by destruct (foldl step e t).
Qed.

Lemma count_dropna k xs : k ≠ NaN → count k (dropna xs) = count k xs.
Proof.
  intros Hk. unfold count, dropna. f_equal.
  induction xs as [|x xs IH]; [done|].
  destruct (decide (x = NaN)) as [->|Hx].
  - rewrite (filter_cons (λ c, c ≠ NaN)), decide_False by (by intros []).
    rewrite (filter_cons (λ c, c = k) NaN), decide_False by congruence. done.
  - rewrite (filter_cons (λ c, c ≠ NaN)), decide_True by done.
    rewrite !(filter_cons (λ c, c = k)). by destruct (decide (x = k)); rewrite IH.
Qed.

Lemma count_zero k xs : k ∉ xs → count k xs = 0.
Proof.
  intros Hk. unfold count. induction xs as [|x xs IH]; [done|].
  apply not_elem_of_cons in Hk as [Hne Hk].
  rewrite filter_cons, decide_False by congruence. by apply IH.
Qed.

Lemma mode_elem_of s c :
  c ∈ mode s →
  c ∈ dropna (values s) ∧
  ∀ k, count k (dropna (values s)) ≤ count c (dropna (values s)).
Proof.
  unfold mode. set (xs := dropna (values s)). set (keys := unique xs).
  set (top := max_list ((λ k, count k xs) <$> keys)).
  intros Hc.
  assert (c ∈ filter (λ k, count k xs = top) keys) as Hin.
  { destruct (dtype_of s).
    - destruct (_ || _); [by apply elem_of_sort_by in Hc|done].
    - destruct (_ || _); [by apply elem_of_sort_by in Hc|done].
    - by apply elem_of_sort_by in Hc. }
  apply list_elem_of_filter in Hin as [Htop Hkey]. split.
  { by apply (elem_of_unique c xs). }
  intros k. rewrite Htop. destruct (decide (k ∈ xs)) as [Hk|Hk].
  - apply max_list_elem_of_le, list_elem_of_fmap.
    exists k. split; [done|]. by apply (elem_of_unique k xs).
  - rewrite (count_zero k xs Hk). lia.
Qed.

Lemma groupby_size_empty df c s t :
  data df !! c = Some s → values s = [] → groupby_size df c = Ok t → t = [].
Proof.
  intros Hs Hv. unfold groupby_size, getitem. rewrite Hs. simpl. rewrite Hv.
  intros [= <-]. destruct (dtype_of s) as [| |cats]; [done..|].
  induction cats as [|l cats IH]; [done|]. simpl.
  rewrite filter_cons, decide_False; [done|]. apply not_elem_of_nil.
Qed.

Lemma aggregate_required argsort share fdf r c :
  aggregate argsort share fdf = Ok r → c ∈ required_columns → is_Some (data fdf !! c).
Proof.
  unfold aggregate. intros Hr Hc.
  apply bind_Ok in Hr as (? & _ & Hr). apply bind_Ok in Hr as (? & _ & Hr).
  apply bind_Ok in Hr as (? & _ & Hr).
  apply bind_Ok in Hr as (? & Hsev%getitem_Ok & Hr).
  apply bind_Ok in Hr as (? & Hhg & Hr). apply bind_Ok in Hr as (? & Hpb & Hr).
  apply bind_Ok in Hr as (? & Hst & Hr). apply bind_Ok in Hr as (? & Hmap & _).
  unfold groupby_size in *.
  apply bind_Ok in Hhg as (? & Hhg%getitem_Ok & _).
  apply bind_Ok in Hpb as (? & Hpb%getitem_Ok & _).
  apply bind_Ok in Hst as (? & Hst%getitem_Ok & _).
  unfold scatter_mapbox in Hmap.
  destruct (forallb _ _) eqn:Hall; [|done].
  simpl in Hall. rewrite !andb_true_iff, !has_column_true in Hall.
  unfold required_columns in Hc.
  repeat (apply elem_of_cons in Hc as [->|Hc]; [by eauto || tauto|]).
  by apply elem_of_nil in Hc.
Qed.

Section cards_and_charts.
Variable argsort : list nat → list nat.
Variable share : nat → nat → Qc.
Variable to_datetime_hour : Series → result Series.
Variable str_of_number : Qc → string.

(** X6: for every argsort that sorts, the table behind the hour-group bar
    chart (line 132) holds the rows of the grouped table, rearranged so that
    the counts never decrease. *)
Theorem hour_chart_sorted df ss sh sp r :
  sorts argsort →
  update_dashboard argsort share str_of_number df ss sh sp = Ok r →
  fig_hour r ≡ₚ accidents_by_hour r ∧
  StronglySorted (λ a b, a.2 ≤ b.2) (fig_hour r).
Proof.
  intros Hsorts (fdf & Hf & Hr)%update_dashboard_Ok.
  apply aggregate_Ok in Hr
    as (? & ? & ? & ? & ? & ? & ? & _ & _ & _ & _ & _ & _ & _ & ->).
  cbn [fig_hour accidents_by_hour]. split.
  - by apply sort_values_asc_Permutation.
  - by apply sort_values_asc_sorted.
Qed.

(** X7: on a prepared table, when the selection keeps at least one row, the
    busiest hour group shown in the third card is one of the four labels and
    no hour group has more of the kept rows, whichever argsort that sorts
    orders the counts. *)
Theorem busiest_hour_group_is_most_frequent raw df ss sh sp r :
  sorts argsort →
  prepare to_datetime_hour raw = Ok df →
  update_dashboard argsort share str_of_number df ss sh sp = Ok r →
  0 < total_accidents r →
  ∃ g hour_group,
    busiest_hour_group r = Str g ∧ g ∈ hour_labels ∧
    data (fig_map r) !! "Hour_Group" = Some hour_group ∧
    ∀ g', g' ∈ hour_labels →
          count (Str g') (values hour_group) ≤ count (Str g) (values hour_group).
Proof.
  intros argsort_sorts (s & Hs & Hd)%prepare_hour_group
    (fdf & Hf & Hr)%update_dashboard_Ok Hlen.
  pose proof (filter_rows_same_columns _ _ _ _ _ _ Hf) as Hsame.
  destruct (same_columns_lookup _ _ _ _ Hsame Hs) as (s' & Hs' & Hd').
  rewrite Hd in Hd'.
  apply aggregate_Ok in Hr
    as (? & hg & ? & ? & ? & ? & ? & _ & Hhg & _ & _ & _ & _ & _ & ->).
  cbn [busiest_hour_group fig_map total_accidents] in *.
  unfold busiest_hour_group_of, getitem in Hhg.
  apply Nat.ltb_lt in Hlen. rewrite Hlen, Hs' in Hhg. simpl in Hhg.
  apply idxmax_greatest in Hhg as (n & Hin & Hmax).
  pose proof (value_counts_category _ _ _ argsort_sorts Hd') as Hperm.
  rewrite Hperm in Hin.
  apply list_elem_of_fmap in Hin as (k & [= -> ->] & Hk).
  apply list_elem_of_fmap in Hk as (g & -> & Hg).
  exists g, s'. split_and!; [done..|].
  intros g' Hg'.
  apply (Hmax (Str g', count (Str g') (values s'))).
  rewrite Hperm. apply list_elem_of_fmap. exists (Str g'). split; [done|].
  by apply list_elem_of_fmap_2.
Qed.

(** X8: when the selection keeps at least one row, the severity shown in
    the second card occurs among the kept rows, and no severity occurs in
    more of them. *)
Theorem most_common_severity_is_a_mode df ss sh sp r :
  update_dashboard argsort share str_of_number df ss sh sp = Ok r →
  0 < total_accidents r →
  ∃ severity,
    data (fig_map r) !! "Severity" = Some severity ∧
    most_common_severity r ∈ values severity ∧
    most_common_severity r ≠ NaN ∧
    ∀ k, k ≠ NaN →
         count k (values severity) ≤ count (most_common_severity r) (values severity).
Proof.
  intros (fdf & Hf & Hr)%update_dashboard_Ok Hlen.
  apply aggregate_Ok in Hr
    as (sev & ? & ? & s & ? & ? & ? & Hsev & _ & _ & Hs%getitem_Ok & _ & _ & _ & ->).
  cbn [most_common_severity fig_map total_accidents] in *.
  unfold most_common_severity_of, getitem in Hsev.
  apply Nat.ltb_lt in Hlen. rewrite Hlen, Hs in Hsev. simpl in Hsev.
  assert (sev ∈ mode s) as Hmode.
  { destruct (mode s) as [|c cs]; [done|]. injection Hsev as <-. by left. }
  apply mode_elem_of in Hmode as [[Hne Hin]%elem_of_dropna Hmax].
  exists s. split_and!; [done..|].
  intros k Hk. rewrite <-(count_dropna k), <-(count_dropna sev) by done.
  apply Hmax.
Qed.

(** X9: whenever the selection keeps no row and the callback returns, the
    severity and hour-group cards show ["N/A"], the three grouped tables and
    the top-states table are empty, and the mean is [NaN] if the table has a
    precipitation column and [0] if it has none. *)
Theorem no_rows_outputs df ss sh sp r :
  wf df →
  update_dashboard argsort share str_of_number df ss sh sp = Ok r →
  total_accidents r = 0 →
  most_common_severity r = Str "N/A" ∧
  busiest_hour_group r = Str "N/A" ∧
  accidents_by_hour r = [] ∧
  fig_hour r = [] ∧
  accidents_by_precip r = [] ∧
  accidents_by_state r = [] ∧
  avg_precip r = if has_column df "Precipitation(in)" then NaN else Num (Qc_of_Z 0).
Proof.
  intros Hwf (fdf & Hf & Hr)%update_dashboard_Ok Htotal.
  pose proof (filter_rows_wf _ _ _ _ _ _ Hwf Hf) as Hwf'.
  pose proof (filter_rows_same_columns _ _ _ _ _ _ Hf) as Hsame.
  pose proof (avg_precip_mean _ _ _ _ Hr) as Havg.
  apply aggregate_Ok in Hr
    as (sev & hg & avg & s & bh & bp & bs
        & Hsev & Hhg & _ & _ & Hbh & Hbp & Hbs & ->).
  cbn [total_accidents most_common_severity busiest_hour_group accidents_by_hour
       fig_hour accidents_by_precip accidents_by_state avg_precip] in *.
  assert (∀ c s, data fdf !! c = Some s → values s = []) as Hnil.
  { intros c s' Hs'. pose proof (wf_lookup _ _ _ Hwf' Hs') as Hl.
    rewrite Htotal in Hl. by destruct (values s'). }
  assert (∀ c t, groupby_size fdf c = Ok t → t = []) as Hgroup.
  { intros c t Ht. pose proof Ht as Ht'. unfold groupby_size in Ht'.
    apply bind_Ok in Ht' as (s' & Hs'%getitem_Ok & _).
    by apply (groupby_size_empty fdf c s'); [|apply (Hnil c)|]. }
  unfold most_common_severity_of in Hsev. unfold busiest_hour_group_of in Hhg.
  rewrite Htotal in Hsev, Hhg. simpl in Hsev, Hhg.
  injection Hsev as <-. injection Hhg as <-.
  rewrite (Hgroup _ _ Hbh), (Hgroup _ _ Hbp), (Hgroup _ _ Hbs).
  unfold sort_values_asc, sort_values_desc, sort_values. rewrite !take_rows_nil.
  split_and!; [done..|].
  unfold has_column. specialize (Hsame "Precipitation(in)").
  destruct (data fdf !! "Precipitation(in)") as [p'|] eqn:Hp'.
  - rewrite (Hnil _ _ Hp') in Havg. simpl in Havg.
    rewrite bool_decide_eq_true_2; [done|].
    by destruct (data df !! "Precipitation(in)"); eauto.
  - rewrite bool_decide_eq_false_2; [done|].
    destruct (data df !! "Precipitation(in)"); [done|]. by intros [? [=]].
Qed.

(** X10: the callback reads seven columns whatever is selected: if the
    table lacks one of State, Severity, Hour_Group, Precipitation_Bin,
    Start_Lat, Start_Lng or City, it raises for every selection. *)
Theorem missing_column_raises df c ss sh sp :
  c ∈ required_columns →
  data df !! c = None →
  ∃ e, update_dashboard argsort share str_of_number df ss sh sp = Raise e.
Proof.
  intros Hc Hnone.
  destruct (update_dashboard _ _ _ _ _ _ _) as [r|e] eqn:Hr; [|by exists e].
  apply update_dashboard_Ok in Hr as (fdf & Hf%filter_rows_same_columns & Hr).
  destruct (aggregate_required _ _ _ _ _ Hr Hc) as [s Hs].
  by rewrite (same_columns_lookup_None _ _ _ Hf Hnone) in Hs.
Qed.

(** X11: on a table with one cell per row in every column that has the seven
    columns, a severity in every record, a categorical hour group and numeric
    precipitation amounts, the callback returns for every selection (and
    every argsort that sorts), and its total is at most the number of
    records. *)
Theorem ready_table_returns df ss sh sp :
  sorts argsort →
  ready df →
  ∃ r, update_dashboard argsort share str_of_number df ss sh sp = Ok r ∧
       total_accidents r ≤ len df.
Proof.
  intros Hsorts Hready. pose proof Hready as (Hwf & _).
  destruct (update_dashboard_returns argsort share str_of_number df ss sh sp
              Hsorts Hready) as [r Hr].
  exists r. split; [done|].
  apply update_dashboard_Ok in Hr as (fdf & Hf & Hr).
  apply aggregate_Ok in Hr
    as (? & ? & ? & ? & ? & ? & ? & _ & _ & _ & _ & _ & _ & _ & ->).
  cbn [total_accidents]. rewrite (filter_rows_len _ _ _ _ _ _ Hwf Hf).
  unfold matching_rows. etransitivity; [apply length_filter|].
  by rewrite length_seq.
Qed.
End cards_and_charts.

(** ** Percentages and group counts *)

Lemma sum_list_cons (n : nat) ns : sum_list (n :: ns) = n + sum_list ns.
Proof. done. Qed.

Lemma sum_list_indicator_0 (x : cell) keys :
  x ∉ keys → sum_list ((λ k, if decide (x = k) then 1 else 0) <$> keys) = 0.
Proof.
  induction keys as [|k keys IH]; [done|].
  intros [Hne Hx]%not_elem_of_cons.
  rewrite fmap_cons, sum_list_cons, decide_False by done. by rewrite IH.
Qed.

Lemma sum_list_indicator (x : cell) keys :
  NoDup keys → x ∈ keys →
  sum_list ((λ k, if decide (x = k) then 1 else 0) <$> keys) = 1.
Proof.
  induction 1 as [|k keys Hk Hnd IH]; [by intros ?%elem_of_nil|].
  intros Hx. rewrite fmap_cons, sum_list_cons.
  destruct (decide (x = k)) as [->|Hne].
  - by rewrite sum_list_indicator_0.
  - apply elem_of_cons in Hx as [?|Hx]; [done|]. by rewrite IH.
Qed.

Lemma sum_list_counts keys xs :
  NoDup keys → (∀ x, x ∈ xs → x ∈ keys) →
  sum_list ((λ k, count k xs) <$> keys) = length xs.
Proof.
  intros Hnd. induction xs as [|x xs IH]; intros Hin.
  - clear. induction keys as [|k keys IHk]; [done|].
    by rewrite fmap_cons, sum_list_cons, IHk.
  - assert (sum_list ((λ k, count k (x :: xs)) <$> keys)
            = sum_list ((λ k, if decide (x = k) then 1 else 0) <$> keys)
              + sum_list ((λ k, count k xs) <$> keys)) as ->.
    { clear. induction keys as [|k keys IHk]; [done|].
      rewrite !fmap_cons, !sum_list_cons, IHk.
      unfold count at 1. rewrite filter_cons.
      destruct (decide (x = k)); simpl; unfold count; lia. }
    rewrite sum_list_indicator, IH; [done| |done|].
    + intros y Hy. apply Hin. by right.
    + apply Hin. by left.
Qed.

(** The counts of a grouped table add up to the number of non-missing
    cells, provided a categorical column holds only its categories. *)
Lemma groupby_size_sum df c s t :
  data df !! c = Some s →
  (∀ cats, dtype_of s = Category cats →
           NoDup cats ∧ ∀ x, x ∈ dropna (values s) → x ∈ Str <$> cats) →
  groupby_size df c = Ok t →
  sum_list (snd <$> t) = length (dropna (values s)).
Proof.
  intros Hs Hcat. unfold groupby_size, getitem. rewrite Hs. simpl.
  intros [= <-]. rewrite <-list_fmap_compose.
  set (keys := match dtype_of s with
               | Category cats => filter (λ k, k ∈ values s) (Str <$> cats)
               | _ => sort_by cell_leb (unique (dropna (values s)))
               end).
  assert (NoDup keys ∧ (∀ x, x ∈ dropna (values s) → x ∈ keys) ∧
          ∀ k, k ∈ keys → k ≠ NaN) as (Hnd & Hin & Hne).
  { unfold keys. destruct (dtype_of s) as [| |cats] eqn:Hd.
    - split_and!.
      + rewrite sort_by_Permutation. apply NoDup_unique.
      + intros x Hx. by apply elem_of_sort_by, elem_of_unique.
      + by intros k [? _]%elem_of_sort_by%elem_of_unique%elem_of_dropna.
    - split_and!.
      + rewrite sort_by_Permutation. apply NoDup_unique.
      + intros x Hx. by apply elem_of_sort_by, elem_of_unique.
      + by intros k [? _]%elem_of_sort_by%elem_of_unique%elem_of_dropna.
    - destruct (Hcat cats eq_refl) as [Hnd Hin]. split_and!.
      + apply NoDup_filter, NoDup_fmap_2; [|done]. by intros ?? [=].
      + intros x Hx. apply list_elem_of_filter. split; [|by apply Hin].
        by apply elem_of_dropna in Hx as [_ ?].
      + intros k [_ (l & -> & _)%list_elem_of_fmap]%list_elem_of_filter. done. }
  rewrite <-(sum_list_counts keys (dropna (values s)) Hnd Hin).
  f_equal. apply list_fmap_ext. intros _ k Hk%list_elem_of_lookup_2. simpl.
  symmetry. apply count_dropna. by apply Hne.
Qed.

Lemma cut_label_cases bins labels x :
  cut_label bins labels x = NaN ∨ ∃ l, l ∈ labels ∧ cut_label bins labels x = Str l.
Proof.
  revert labels. induction bins as [|lo bins IH]; intros labels; [by left|].
  destruct bins as [|hi rest]; [by left|]. destruct labels as [|l labels]; [by left|].
  cbn [cut_label]. destruct (_ && _).
  - right. exists l. split; [by left|done].
  - destruct (IH labels) as [?|(l' & ? & ?)]; [by left|].
    right. exists l'. split; [by right|done].
Qed.

Lemma cut_cells s bins labels s' :
  cut s bins labels = Ok s' →
  ∀ x, x ∈ dropna (values s') → x ∈ Str <$> labels.
Proof.
  intros [_ ->]%cut_Ok x [Hne Hx]%elem_of_dropna. simpl in Hx.
  apply list_elem_of_fmap in Hx as (c & -> & _). unfold cut_cell in *.
  destruct c as [?|q|]; [done| |done].
  destruct (cut_label_cases bins labels q) as [Hq|(l & Hl & Hq)]; [done|].
  rewrite Hq. by apply list_elem_of_fmap_2.
Qed.

Section percentages.
Variable argsort : list nat → list nat.
Variable share : nat → nat → Qc.
Variable to_datetime_hour : Series → result Series.
Variable str_of_number : Qc → string.

Lemma prepare_hour_group_cells raw df :
  prepare to_datetime_hour raw = Ok df →
  ∃ s, data df !! "Hour_Group" = Some s ∧ dtype_of s = Category hour_labels ∧
       ∀ x, x ∈ dropna (values s) → x ∈ Str <$> hour_labels.
Proof.
  intros (df1 & hour & hg & _ & _ & Hcut & Hp)%prepare_Ok.
  exists hg. split_and!.
  - destruct Hp as [[_ ->]|(precip & pb & _ & _ & ->)]; simpl.
    + by rewrite lookup_insert_eq.
    + rewrite lookup_insert_ne by done. by rewrite lookup_insert_eq.
  - by apply cut_dtype in Hcut.
  - by apply (cut_cells hour hour_bins).
Qed.


(** X13: on a prepared table, the counts of the hour-group table add up to
    the number of kept rows that have an hour group. *)
Theorem hour_counts_add_up raw df ss sh sp r :
  wf df →
  prepare to_datetime_hour raw = Ok df →
  update_dashboard argsort share str_of_number df ss sh sp = Ok r →
  ∃ hour_group,
    data (fig_map r) !! "Hour_Group" = Some hour_group ∧
    sum_list (snd <$> accidents_by_hour r) = length (dropna (values hour_group)).
Proof.
  intros Hwf (s & Hs & Hd & Hcells)%prepare_hour_group_cells
    (fdf & Hf & Hr)%update_dashboard_Ok.
  apply aggregate_Ok in Hr
    as (? & ? & ? & ? & by_hour & ? & ? & _ & _ & _ & _ & Hh & _ & _ & ->).
  cbn [fig_map accidents_by_hour].
  destruct (filter_rows_holds _ _ _ _ _ _ Hwf Hf) as (m & -> & _).
  exists (select_series m s). split; [by rewrite loc_lookup, Hs|].
  apply (groupby_size_sum (loc df m) "Hour_Group"); [by rewrite loc_lookup, Hs| |done].
  simpl. rewrite Hd. intros cats [= <-]. split.
  - apply (bool_decide_unpack _). by vm_compute.
  - intros y [Hne Hy%elem_of_select]%elem_of_dropna.
    apply Hcells. by apply elem_of_dropna.
Qed.
End percentages.

(** ** The prepared table and the dropdowns *)

Lemma length_filter_positive {A} (P : A → Prop) `{!∀ x, Decision (P x)} l x :
  x ∈ l → P x → 1 ≤ length (filter P l).
Proof.
  intros Hx HP. assert (x ∈ filter P l) as Hin by by apply list_elem_of_filter.
  destruct (filter P l); [by apply elem_of_nil in Hin|simpl; lia].
Qed.

Lemma dropdown_options_Ok df c opts :
  dropdown_options df c = Ok opts →
  ∃ s, data df !! c = Some s ∧ NoDup opts ∧
       ∀ o, o ∈ opts ↔ o ≠ NaN ∧ o ∈ values s.
Proof.
  unfold dropdown_options. intros Ho.
  apply bind_Ok in Ho as (s & Hs%getitem_Ok & [= <-]).
  exists s. split_and!; [done|apply NoDup_unique|].
  intros o. by rewrite elem_of_unique, elem_of_dropna.
Qed.

Section dropdowns.
Variable argsort : list nat → list nat.
Variable share : nat → nat → Qc.
Variable to_datetime_hour : Series → result Series.
Variable str_of_number : Qc → string.

Lemma prepare_precipitation_bin raw df precip :
  data raw !! "Precipitation(in)" = Some precip →
  prepare to_datetime_hour raw = Ok df →
  ∃ precip_bin,
    cut precip precip_bins precip_labels = Ok precip_bin ∧
    data df !! "Precipitation_Bin" = Some precip_bin.
Proof.
  intros Hraw (df1 & hour & hg & H1 & _ & _ & Hp)%prepare_Ok.
  assert (data df1 !! "Precipitation(in)" = Some precip) as Hdf1.
  { destruct H1 as [[-> _]|(_ & start & h & _ & _ & ->)]; [done|].
    simpl. by rewrite lookup_insert_ne. }
  destruct Hp as [[Hnone _]|(p & pb & Hsome & Hcut & ->)]; [congruence|].
  exists pb. rewrite Hdf1 in Hsome. injection Hsome as <-.
  split; [done|]. simpl. by rewrite lookup_insert_eq.
Qed.

(** X14: an option offered by the hour-group dropdown, or by the
    precipitation dropdown, keeps at least one record when it is the only
    choice made. *)
Theorem offered_option_keeps_a_record df opts x :
  wf df →
  (hour_filter_options df = Ok opts → Str x ∈ opts →
   ∀ r, update_dashboard argsort share str_of_number df None (Some [x]) None = Ok r →
        1 ≤ total_accidents r) ∧
  (precip_filter_options df = Ok opts → Str x ∈ opts →
   ∀ r, update_dashboard argsort share str_of_number df None None (Some [x]) = Ok r →
        1 ≤ total_accidents r).
Proof.
  intros Hwf.
  assert (∀ c s, data df !! c = Some s → Str x ∈ values s →
            ∃ i, i ∈ seq 0 (len df) ∧ cell_at df c i = Some (Str x)) as Hrow.
  { intros c s Hs (i & Hi)%list_elem_of_lookup_1. exists i. split.
    - apply elem_of_seq. apply lookup_lt_Some in Hi.
      rewrite (wf_lookup _ _ _ Hwf Hs) in Hi. lia.
    - unfold cell_at. by rewrite Hs. }
  assert (∀ ss sh sp r, update_dashboard argsort share str_of_number df ss sh sp = Ok r →
            total_accidents r = matching_rows str_of_number df ss sh sp) as Htotal.
  { intros ss sh sp r (fdf & Hf & Hr)%update_dashboard_Ok.
    apply aggregate_Ok in Hr
      as (? & ? & ? & ? & ? & ? & ? & _ & _ & _ & _ & _ & _ & _ & ->).
    by apply filter_rows_len. }
  split; intros (s & Hs & _ & Hin)%dropdown_options_Ok [_ Hx]%Hin r Hr;
    rewrite (Htotal _ _ _ _ Hr); unfold matching_rows;
    destruct (Hrow _ s Hs Hx) as (i & Hi & Hc);
    apply (length_filter_positive _ _ i Hi);
    unfold row_satisfies, constraint; simpl; rewrite Hc; simpl;
    rewrite ?andb_true_r; apply bool_decide_eq_true; by left.
Qed.

(** X15: on a prepared table the hour-group dropdown is built without error
    and offers each hour group at most once, all of them among the four
    labels. *)
Theorem hour_options_are_labels raw df :
  prepare to_datetime_hour raw = Ok df →
  ∃ opts, hour_filter_options df = Ok opts ∧
          NoDup opts ∧
          (∀ o, o ∈ opts → o ∈ Str <$> hour_labels) ∧
          length opts ≤ 4.
Proof.
  intros (s & Hs & _ & Hcells)%prepare_hour_group_cells.
  unfold hour_filter_options, dropdown_options, getitem. rewrite Hs. simpl.
  eexists. split; [done|].
  assert (∀ o, o ∈ unique (dropna (values s)) → o ∈ Str <$> hour_labels) as Hin.
  { intros o Ho. apply Hcells. by apply (proj1 (elem_of_unique _ _)). }
  split_and!; [apply NoDup_unique|done|].
  change 4 with (length (Str <$> hour_labels)).
  apply submseteq_length, NoDup_submseteq; [apply NoDup_unique|done].
Qed.

(** X16: the precipitation dropdown (line 54) on a prepared table: with a
    precipitation column it offers each bucket at most once, all among the six
    labels; with neither a precipitation column nor a bucket column in the raw
    table, building it raises [KeyError]. *)
Theorem precip_options_by_column raw df :
  prepare to_datetime_hour raw = Ok df →
  match data raw !! "Precipitation(in)" with
  | Some _ =>
      ∃ opts, precip_filter_options df = Ok opts ∧
              NoDup opts ∧
              ∀ o, o ∈ opts → o ∈ Str <$> precip_labels
  | None =>
      data raw !! "Precipitation_Bin" = None →
      precip_filter_options df = Raise (KeyError "Precipitation_Bin")
  end.
Proof.
  intros Hp. destruct (data raw !! "Precipitation(in)") as [precip|] eqn:Hraw.
  - destruct (prepare_precipitation_bin _ _ _ Hraw Hp) as (pb & Hcut & Hpb).
    unfold precip_filter_options, dropdown_options, getitem. rewrite Hpb. simpl.
    eexists. split_and!; [done|apply NoDup_unique|].
    intros o Ho. apply (cut_cells precip precip_bins _ _ Hcut).
    by apply (proj1 (elem_of_unique _ _)).
  - intros Hbin.
    pose proof (prepare_without_precipitation _ _ _ Hraw Hp) as Hdf.
    unfold precip_filter_options, dropdown_options, getitem.
    by rewrite Hdf, Hbin.
Qed.
End dropdowns.

Section prepared_invariant.
Variable to_datetime_hour : Series → result Series.
Hypothesis to_datetime_hour_length :
  ∀ s h, to_datetime_hour s = Ok h → length (values h) = length (values s).

(** X17: preparation keeps the table well formed: if every column of the raw
    table has one cell per row, so has every column of the prepared table,
    the number of rows is unchanged, and the new [Hour_Group] column is
    categorical over the four labels with every cell a label or missing. *)
Theorem prepare_keeps_table_well_formed raw df :
  wf raw →
  prepare to_datetime_hour raw = Ok df →
  wf df ∧ len df = len raw ∧
  ∃ hour_group,
    data df !! "Hour_Group" = Some hour_group ∧
    dtype_of hour_group = Category hour_labels ∧
    length (values hour_group) = len raw ∧
    ∀ x, x ∈ values hour_group → x = NaN ∨ x ∈ Str <$> hour_labels.
Proof.
  intros Hwf Hp.
  pose proof (prepare_wf to_datetime_hour to_datetime_hour_length raw df Hwf Hp) as Hwf'.
  assert (len df = len raw) as Hlen.
  { apply prepare_Ok in Hp as (df1 & ? & ? & H1 & _ & _ & Hp).
    assert (len df1 = len raw) as <-.
    { by destruct H1 as [[-> _]|(_ & ? & ? & _ & _ & ->)]. }
    by destruct Hp as [[_ ->]|(? & ? & _ & _ & ->)]. }
  destruct (prepare_hour_group_cells _ _ _ Hp) as (hg & Hhg & Hd & Hcells).
  split_and!; [done..|]. exists hg. split_and!; [done..| |].
  - by rewrite (wf_lookup _ _ _ Hwf' Hhg).
  - intros x Hx. destruct (decide (x = NaN)) as [|Hne]; [by left|].
    right. apply Hcells. by apply elem_of_dropna.
Qed.
End prepared_invariant.

(** ** The top states and the order of the filters *)

Lemma groupby_size_entry df c s t e :
  data df !! c = Some s →
  groupby_size df c = Ok t →
  e ∈ t →
  e.1 ∈ values s ∧ e.1 ≠ NaN ∧ e.2 = count e.1 (values s).
Proof.
  intros Hs. unfold groupby_size, getitem. rewrite Hs. simpl. intros [= <-].
  intros (k & -> & Hk)%list_elem_of_fmap. simpl. destruct (dtype_of s).
  - apply elem_of_sort_by in Hk. apply (proj1 (elem_of_unique _ _)) in Hk.
    by apply elem_of_dropna in Hk as [? ?].
  - apply elem_of_sort_by in Hk. apply (proj1 (elem_of_unique _ _)) in Hk.
    by apply elem_of_dropna in Hk as [? ?].
  - apply list_elem_of_filter in Hk as [Hin (l & -> & _)%list_elem_of_fmap]. done.
Qed.

Lemma zip_with_andb_comm m1 m2 : zip_with andb m1 m2 = zip_with andb m2 m1.
Proof.
  revert m2. induction m1 as [|a m1 IH]; intros [|b m2]; simpl; [done..|].
  by rewrite andb_comm, IH.
Qed.

Section top_states_and_order.
Variable argsort : list nat → list nat.
Variable share : nat → nat → Qc.
Variable str_of_number : Qc → string.

(** X18: for every argsort that sorts, every row of the top-states table is
    a state of the kept rows together with its number of kept rows, and a
    state that is left out of the table has no more rows than any state
    listed. *)
Theorem top_states_are_the_largest df ss sh sp r :
  sorts argsort →
  update_dashboard argsort share str_of_number df ss sh sp = Ok r →
  ∃ state by_state,
    data (fig_map r) !! "State" = Some state ∧
    groupby_size (fig_map r) "State" = Ok by_state ∧
    (∀ e, e ∈ accidents_by_state r →
          e ∈ by_state ∧ e.1 ∈ values state ∧ e.2 = count e.1 (values state)) ∧
    (∀ e, e ∈ by_state →
          e ∈ accidents_by_state r ∨ ∀ a, a ∈ accidents_by_state r → e.2 ≤ a.2).
Proof.
  intros Hsorts (fdf & Hf & Hr)%update_dashboard_Ok.
  apply aggregate_Ok in Hr
    as (? & ? & ? & ? & ? & ? & by_state & _ & _ & _ & _ & _ & _ & Hst & ->).
  cbn [fig_map accidents_by_state]. unfold head.
  pose proof Hst as Hst'. unfold groupby_size in Hst'.
  apply bind_Ok in Hst' as (state & Hstate%getitem_Ok & _).
  exists state, by_state. split_and!; [done..| |].
  - intros e He.
    assert (e ∈ by_state) as Hin.
    { rewrite <-(sort_values_desc_Permutation argsort Hsorts by_state).
      rewrite <-(take_drop 10 (sort_values_desc argsort by_state)).
      apply elem_of_app. by left. }
    destruct (groupby_size_entry _ _ _ _ _ Hstate Hst Hin) as (? & _ & ?). done.
  - intros e He.
    rewrite <-(sort_values_desc_Permutation argsort Hsorts by_state) in He.
    rewrite <-(take_drop 10 (sort_values_desc argsort by_state)) in He.
    apply elem_of_app in He as [He|He]; [by left|]. right. intros a Ha.
    pose proof (sort_values_desc_sorted argsort Hsorts by_state) as Hsorted.
    rewrite <-(take_drop 10 (sort_values_desc argsort by_state)) in Hsorted.
    apply (StronglySorted_app_1_elem_of _ _ _ a e Hsorted Ha He).
Qed.

Lemma filter_rows_hour_only df sh :
  filter_rows str_of_number df None sh None
  = if truthy sh then
      let* hour_group := getitem df "Hour_Group" in
      Ok (loc df (isin hour_group (chosen sh)))
    else Ok df.
Proof.
  unfold filter_rows. simpl. destruct (truthy sh); [|done].
  by destruct (getitem df "Hour_Group").
Qed.

Lemma filter_rows_state_only df ss :
  filter_rows str_of_number df ss None None
  = if truthy ss then
      let* state := getitem df "State" in
      Ok (loc df (isin state (chosen ss)))
    else Ok df.
Proof.
  unfold filter_rows. simpl. destruct (truthy ss); [|done].
  by destruct (getitem df "State").
Qed.

Lemma filter_rows_state_hour df ss sh :
  filter_rows str_of_number df ss sh None
  = let* d := filter_rows str_of_number df ss None None in
    filter_rows str_of_number d None sh None.
Proof.
  rewrite filter_rows_state_only. unfold filter_rows. simpl.
  destruct (truthy ss); simpl.
  - destruct (getitem df "State"); [|done]. simpl.
    destruct (truthy sh); [|done]. by destruct (getitem _ "Hour_Group").
  - destruct (truthy sh); [|done]. by destruct (getitem _ "Hour_Group").
Qed.

(** X19: the order of the filters does not matter: filtering by hour group
    first and by state afterwards gives the frame the callback gets by
    filtering by state first and by hour group afterwards. *)
Theorem filters_commute df sh ss d1 d2 :
  wf df →
  filter_rows str_of_number df None sh None = Ok d1 →
  filter_rows str_of_number d1 ss None None = Ok d2 →
  filter_rows str_of_number df ss sh None = Ok d2.
Proof.
  intros Hwf H1 H2.
  rewrite filter_rows_state_hour, filter_rows_state_only.
  rewrite filter_rows_hour_only in H1. rewrite filter_rows_state_only in H2.
  destruct (truthy sh) eqn:Hsh, (truthy ss) eqn:Hss.
  - apply bind_Ok in H1 as (hg & Hhg%getitem_Ok & [= <-]).
    apply bind_Ok in H2 as (st' & Hst'%getitem_Ok & [= <-]).
    rewrite loc_lookup in Hst'.
    destruct (data df !! "State") as [st|] eqn:Hst; [|done].
    injection Hst' as <-. unfold getitem at 1. rewrite Hst.
    cbn [bind]. rewrite filter_rows_hour_only, Hsh.
    unfold getitem. rewrite loc_lookup, Hhg. cbn [bind fmap option_fmap option_map].
    pose proof (wf_lookup _ _ _ Hwf Hhg) as Lhg.
    pose proof (wf_lookup _ _ _ Hwf Hst) as Lst.
    unfold isin. cbn [values select_series].
    rewrite !loc_loc by (rewrite length_fmap; lia).
    by rewrite zip_with_andb_comm.
  - injection H2 as <-. cbn [bind]. by rewrite filter_rows_hour_only, Hsh.
  - injection H1 as <-. rewrite H2. cbn [bind].
    by rewrite filter_rows_hour_only, Hsh.
  - injection H1 as <-. injection H2 as <-. cbn [bind].
    by rewrite filter_rows_hour_only, Hsh.
Qed.
End top_states_and_order.

(** ** The further properties at work on the scenario tables *)

Ltac by_computation := apply (bool_decide_unpack _); vm_compute; exact I.

Lemma kept_rows_satisfy_selection_witness :
  wf scenario_df ∧
  ∃ r, update_dashboard stable_argsort exact_share no_str scenario_df (Some ["CA"]) (Some ["Afternoon"]) None = Ok r ∧
       0 < total_accidents r ∧
       constraint (Some ["CA"]) (cell_at (fig_map r) "State" 0 ≫= text_of) = true ∧
       constraint (Some ["Afternoon"]) (cell_at (fig_map r) "Hour_Group" 0 ≫= text_of) = true ∧
       constraint None (label_text no_str <$> cell_at (fig_map r) "Precipitation_Bin" 0) = true.
Proof.
  assert (wf scenario_df) as Hwf by by_computation.
  split; [exact Hwf|]. eexists. split; [vm_compute; reflexivity|].
  split; [vm_compute; lia|].
  apply (kept_rows_satisfy_selection stable_argsort exact_share no_str scenario_df
           (Some ["CA"]) (Some ["Afternoon"]) None _ 0 Hwf);
    [vm_compute; reflexivity|vm_compute; lia].
Defined.

Lemma filter_rows_idempotent_witness :
  wf scenario_df ∧
  ∃ fdf, filter_rows no_str scenario_df (Some ["CA"]) None (Some ["Light"]) = Ok fdf ∧
         filter_rows no_str fdf (Some ["CA"]) None (Some ["Light"]) = Ok fdf.
Proof.
  assert (wf scenario_df) as Hwf by by_computation.
  split; [exact Hwf|]. eexists. split; [vm_compute; reflexivity|].
  apply (filter_rows_idempotent no_str scenario_df (Some ["CA"]) None (Some ["Light"]) _ Hwf).
  vm_compute. reflexivity.
Defined.

Lemma map_subset_shape_witness :
  wf scenario_df ∧
  ∃ r, update_dashboard stable_argsort exact_share no_str scenario_df (Some ["NY"]) None None = Ok r ∧
       wf (fig_map r) ∧ same_columns scenario_df (fig_map r) ∧
       index (fig_map r) `sublist_of` index scenario_df ∧
       len (fig_map r) = total_accidents r.
Proof.
  assert (wf scenario_df) as Hwf by by_computation.
  split; [exact Hwf|]. eexists. split; [vm_compute; reflexivity|].
  apply (map_subset_shape stable_argsort exact_share no_str scenario_df (Some ["NY"]) None None _ Hwf).
  vm_compute. reflexivity.
Defined.

Lemma hour_chart_sorted_witness :
  sorts stable_argsort ∧
  ∃ r, update_dashboard stable_argsort exact_share no_str scenario_df None None None = Ok r ∧
       fig_hour r ≡ₚ accidents_by_hour r ∧
       StronglySorted (λ a b, a.2 ≤ b.2) (fig_hour r).
Proof.
  split; [exact stable_argsort_sorts|].
  eexists. split; [vm_compute; reflexivity|].
  apply (hour_chart_sorted stable_argsort exact_share no_str scenario_df None None None
           _ stable_argsort_sorts).
  vm_compute. reflexivity.
Defined.

Lemma busiest_hour_group_is_most_frequent_witness :
  sorts stable_argsort ∧
  prepare no_datetime scenario_raw = Ok scenario_df ∧
  ∃ r, update_dashboard stable_argsort exact_share no_str scenario_df None None None = Ok r ∧
       0 < total_accidents r ∧
       ∃ g hour_group,
         busiest_hour_group r = Str g ∧ g ∈ hour_labels ∧
         data (fig_map r) !! "Hour_Group" = Some hour_group ∧
         ∀ g', g' ∈ hour_labels →
               count (Str g') (values hour_group) ≤ count (Str g) (values hour_group).
Proof.
  assert (prepare no_datetime scenario_raw = Ok scenario_df) as Hp
    by (vm_compute; reflexivity).
  split; [exact stable_argsort_sorts|].
  split; [exact Hp|]. eexists. split; [vm_compute; reflexivity|].
  split; [vm_compute; lia|].
  apply (busiest_hour_group_is_most_frequent stable_argsort exact_share
           no_datetime no_str scenario_raw scenario_df None None None _
           stable_argsort_sorts Hp);
    [vm_compute; reflexivity|vm_compute; lia].
Defined.

Lemma most_common_severity_is_a_mode_witness :
  ∃ r, update_dashboard stable_argsort exact_share no_str scenario_df None None None = Ok r ∧
       0 < total_accidents r ∧
       ∃ severity,
         data (fig_map r) !! "Severity" = Some severity ∧
         most_common_severity r ∈ values severity ∧
         most_common_severity r ≠ NaN ∧
         ∀ k, k ≠ NaN →
              count k (values severity) ≤ count (most_common_severity r) (values severity).
Proof.
  eexists. split; [vm_compute; reflexivity|]. split; [vm_compute; lia|].
  apply (most_common_severity_is_a_mode stable_argsort exact_share no_str scenario_df None None None);
    [vm_compute; reflexivity|vm_compute; lia].
Defined.

Lemma no_rows_outputs_witness :
  wf scenario_df ∧
  ∃ r, update_dashboard stable_argsort exact_share no_str scenario_df (Some ["TX"]) None None = Ok r ∧
       total_accidents r = 0 ∧
       most_common_severity r = Str "N/A" ∧
       busiest_hour_group r = Str "N/A" ∧
       accidents_by_hour r = [] ∧
       fig_hour r = [] ∧
       accidents_by_precip r = [] ∧
       accidents_by_state r = [] ∧
       avg_precip r
       = if has_column scenario_df "Precipitation(in)" then NaN else Num (Qc_of_Z 0).
Proof.
  assert (wf scenario_df) as Hwf by by_computation.
  split; [exact Hwf|]. eexists. split; [vm_compute; reflexivity|].
  split; [vm_compute; reflexivity|].
  apply (no_rows_outputs stable_argsort exact_share no_str scenario_df (Some ["TX"]) None None _ Hwf);
    vm_compute; reflexivity.
Defined.

Lemma missing_column_raises_witness :
  "City" ∈ required_columns ∧
  data (mkFrame (index scenario_df) (delete "City" (data scenario_df))) !! "City" = None ∧
  ∃ e, update_dashboard stable_argsort exact_share no_str
         (mkFrame (index scenario_df) (delete "City" (data scenario_df)))
         None None None = Raise e.
Proof.
  assert ("City" ∈ required_columns) as Hc by by_computation.
  assert (data (mkFrame (index scenario_df) (delete "City" (data scenario_df)))
            !! "City" = None) as Hnone by (vm_compute; reflexivity).
  split_and!; [exact Hc|exact Hnone|].
  exact (missing_column_raises stable_argsort exact_share no_str _ "City" None None None Hc Hnone).
Defined.

Lemma ready_table_returns_witness :
  sorts stable_argsort ∧
  ready scenario_df ∧
  ∃ r, update_dashboard stable_argsort exact_share no_str scenario_df (Some ["CA"]) None (Some ["nan"]) = Ok r ∧
       total_accidents r ≤ len scenario_df.
Proof.
  assert (ready scenario_df) as Hready.
  { apply (prepare_ready no_datetime) with scenario_raw.
    - intros s h. discriminate.
    - by_computation.
    - intros c Hc.
      repeat (apply elem_of_cons in Hc as [->|Hc]; [by vm_compute; eauto|]).
      by apply elem_of_nil in Hc.
    - intros s Hs. vm_compute in Hs. injection Hs as <-. by_computation.
    - vm_compute. reflexivity. }
  split; [exact stable_argsort_sorts|]. split; [exact Hready|].
  exact (ready_table_returns stable_argsort exact_share no_str scenario_df
           (Some ["CA"]) None (Some ["nan"]) stable_argsort_sorts Hready).
Defined.


Lemma hour_counts_add_up_witness :
  wf scenario_df ∧
  prepare no_datetime scenario_raw = Ok scenario_df ∧
  ∃ r, update_dashboard stable_argsort exact_share no_str scenario_df (Some ["CA"]) None None = Ok r ∧
  ∃ hour_group,
    data (fig_map r) !! "Hour_Group" = Some hour_group ∧
    sum_list (snd <$> accidents_by_hour r) = length (dropna (values hour_group)).
Proof.
  assert (wf scenario_df) as Hwf by by_computation.
  assert (prepare no_datetime scenario_raw = Ok scenario_df) as Hp
    by (vm_compute; reflexivity).
  split_and!; [exact Hwf|exact Hp|]. eexists. split; [vm_compute; reflexivity|].
  apply (hour_counts_add_up stable_argsort exact_share no_datetime no_str scenario_raw scenario_df
           (Some ["CA"]) None None _ Hwf Hp).
  vm_compute. reflexivity.
Defined.

Lemma offered_option_keeps_a_record_witness :
  wf scenario_df ∧
  hour_filter_options scenario_df = Ok [Str "Night"; Str "Afternoon"] ∧
  ∃ r, update_dashboard stable_argsort exact_share no_str scenario_df None (Some ["Night"]) None = Ok r ∧
       1 ≤ total_accidents r.
Proof.
  assert (wf scenario_df) as Hwf by by_computation.
  assert (hour_filter_options scenario_df = Ok [Str "Night"; Str "Afternoon"])
    as Hopts by (vm_compute; reflexivity).
  split_and!; [exact Hwf|exact Hopts|]. eexists. split; [vm_compute; reflexivity|].
  apply (proj1 (offered_option_keeps_a_record stable_argsort exact_share no_str scenario_df
                  [Str "Night"; Str "Afternoon"] "Night" Hwf) Hopts).
  - by_computation.
  - vm_compute. reflexivity.
Defined.

Lemma hour_options_are_labels_witness :
  prepare iso_hour scenario_raw_timestamps = Ok scenario_timestamps_df ∧
  ∃ opts, hour_filter_options scenario_timestamps_df = Ok opts ∧
          NoDup opts ∧
          (∀ o, o ∈ opts → o ∈ Str <$> hour_labels) ∧
          length opts ≤ 4.
Proof.
  assert (prepare iso_hour scenario_raw_timestamps = Ok scenario_timestamps_df)
    as Hp by (vm_compute; reflexivity).
  split; [exact Hp|].
  exact (hour_options_are_labels iso_hour scenario_raw_timestamps
           scenario_timestamps_df Hp).
Defined.

Lemma precip_options_by_column_witness :
  prepare no_datetime scenario_raw_dry = Ok scenario_dry_df ∧
  (data scenario_raw_dry !! "Precipitation_Bin" = None →
   precip_filter_options scenario_dry_df = Raise (KeyError "Precipitation_Bin")).
Proof.
  assert (prepare no_datetime scenario_raw_dry = Ok scenario_dry_df)
    as Hp by (vm_compute; reflexivity).
  split; [exact Hp|].
  exact (precip_options_by_column no_datetime scenario_raw_dry scenario_dry_df Hp).
Defined.

Lemma prepare_keeps_table_well_formed_witness :
  (∀ s h, no_datetime s = Ok h → length (values h) = length (values s)) ∧
  wf scenario_raw ∧
  prepare no_datetime scenario_raw = Ok scenario_df ∧
  wf scenario_df ∧ len scenario_df = len scenario_raw.
Proof.
  assert (∀ s h, no_datetime s = Ok h → length (values h) = length (values s))
    as Hlen by (intros s h; discriminate).
  assert (wf scenario_raw) as Hwf by by_computation.
  assert (prepare no_datetime scenario_raw = Ok scenario_df) as Hp
    by (vm_compute; reflexivity).
  split_and!; [exact Hlen|exact Hwf|exact Hp|..];
    apply (prepare_keeps_table_well_formed no_datetime Hlen
             scenario_raw scenario_df Hwf Hp).
Defined.

Lemma top_states_are_the_largest_witness :
  sorts stable_argsort ∧
  ∃ r, update_dashboard stable_argsort exact_share no_str scenario_df None None None = Ok r ∧
  ∃ state by_state,
    data (fig_map r) !! "State" = Some state ∧
    groupby_size (fig_map r) "State" = Ok by_state ∧
    (∀ e, e ∈ accidents_by_state r →
          e ∈ by_state ∧ e.1 ∈ values state ∧ e.2 = count e.1 (values state)) ∧
    (∀ e, e ∈ by_state →
          e ∈ accidents_by_state r ∨ ∀ a, a ∈ accidents_by_state r → e.2 ≤ a.2).
Proof.
  split; [exact stable_argsort_sorts|].
  eexists. split; [vm_compute; reflexivity|].
  apply (top_states_are_the_largest stable_argsort exact_share no_str
           scenario_df None None None _ stable_argsort_sorts).
  vm_compute. reflexivity.
Defined.

Lemma filters_commute_witness :
  wf scenario_df ∧
  ∃ d1 d2,
    filter_rows no_str scenario_df None (Some ["Afternoon"]) None = Ok d1 ∧
    filter_rows no_str d1 (Some ["CA"]) None None = Ok d2 ∧
    filter_rows no_str scenario_df (Some ["CA"]) (Some ["Afternoon"]) None = Ok d2.
Proof.
  assert (wf scenario_df) as Hwf by by_computation.
  split; [exact Hwf|]. do 2 eexists.
  split; [vm_compute; reflexivity|]. split; [vm_compute; reflexivity|].
  eapply (filters_commute no_str scenario_df (Some ["Afternoon"]) (Some ["CA"]));
    [exact Hwf|vm_compute; reflexivity..].
Defined.
